(** * A shallow embedding of [FlightPricePredictor] (src/main_model.py)

    Prices and model outputs are rationals [Q] (floating point rounding is
    not modelled); minute counts, day counts and label codes are integers
    [Z]; a pandas NaN is [None].  A Python [str] is a [string] of its code
    points, all below 256 (Latin-1).  Date parsing and calendar arithmetic
    of pandas are kept abstract (section variables), since no claim depends
    on the calendar itself; whether a timestamp carries a UTC offset is
    kept, since subtracting a tz-naive from a tz-aware one raises. *)

From Stdlib Require Import List String Ascii ZArith QArith Qround Bool Lia Lqa Permutation.
Import ListNotations.
Open Scope string_scope.
Open Scope Z_scope.

(* ------------------------------------------------------------------ *)
(** ** Python string helpers *)

(** [str.isspace] on one character below 256: [\t\n\v\f\r] (9-13),
    the separators [\x1c]-[\x1f] (28-31), the space (32), [\x85] (133) and
    the no-break space [\xa0] (160). *)
Definition is_space (c : ascii) : bool :=
  let n := nat_of_ascii c in
  (Nat.leb 9 n && Nat.leb n 13) || (Nat.leb 28 n && Nat.leb n 32) ||
  Nat.eqb n 133 || Nat.eqb n 160.

Fixpoint lstrip (s : string) : string :=
  match s with
  | EmptyString => EmptyString
  | String c s' => if is_space c then lstrip s' else s
  end.

Definition rev_string (s : string) : string :=
  string_of_list_ascii (rev (list_ascii_of_string s)).

(** [str.strip()] *)
Definition strip (s : string) : string :=
  rev_string (lstrip (rev_string (lstrip s))).

(** [str.split(sep)] with a one-character separator. *)
Fixpoint split_aux (sep : ascii) (cur : string) (s : string) : list string :=
  match s with
  | EmptyString => [cur]
  | String c s' =>
      if Ascii.eqb c sep then cur :: split_aux sep EmptyString s'
      else split_aux sep (cur ++ String c EmptyString) s'
  end.

Definition split (sep : ascii) (s : string) : list string :=
  split_aux sep EmptyString s.

(** [c in s] for a one-character [c]. *)
Fixpoint contains_char (c : ascii) (s : string) : bool :=
  match s with
  | EmptyString => false
  | String d s' => Ascii.eqb c d || contains_char c s'
  end.

(** [s[:2]] *)
Definition prefix2 (s : string) : string := substring 0 2 s.

Definition is_digit (c : ascii) : bool :=
  let n := nat_of_ascii c in (48 <=? n)%nat && (n <=? 57)%nat.

Definition digit_val (c : ascii) : Z := Z.of_nat (nat_of_ascii c) - 48.

(** Digits of a Python integer literal; an underscore is allowed only
    between two digits. *)
Fixpoint digits_aux (acc : Z) (prev_digit : bool) (s : string) : option Z :=
  match s with
  | EmptyString => if prev_digit then Some acc else None
  | String c s' =>
      if is_digit c then digits_aux (acc * 10 + digit_val c) true s'
      else if Ascii.eqb c "_" && prev_digit then digits_aux acc false s'
      else None
  end.

(** [int(s)] on a string: surrounding whitespace, an optional sign, then
    decimal digits (below 256 the only characters with a decimal digit
    value are [0]-[9]); [None] is the [ValueError]. *)
Definition py_int (s : string) : option Z :=
  match strip s with
  | String "+" r => digits_aux 0 false r
  | String "-" r => option_map Z.opp (digits_aux 0 false r)
  | r => digits_aux 0 false r
  end.

(* ------------------------------------------------------------------ *)
(** ** Helpers shared by the training and inference paths *)

(** [hour, minute = map(int, time_str.split(':')); return hour * 60 + minute];
    [None] is any exception raised on the way. *)
Definition parse_hh_mm (time_str : string) : option Z :=
  match split ":" time_str with
  | [h; m] =>
      match py_int h, py_int m with
      | Some hour, Some minute => Some (hour * 60 + minute)
      | _, _ => None
      end
  | _ => None
  end.

(** sklearn [LabelEncoder]: the fitted state is [classes_], the sorted
    distinct training values. *)
Record LabelEncoder := mkLabelEncoder { classes_ : list string }.

Fixpoint insert_sorted (x : string) (l : list string) : list string :=
  match l with
  | [] => [x]
  | y :: l' => if String.leb x y then x :: l else y :: insert_sorted x l'
  end.

Fixpoint sort_strings (l : list string) : list string :=
  match l with
  | [] => []
  | x :: l' => insert_sorted x (sort_strings l')
  end.

(** [np.unique], as [LabelEncoder.fit] computes [classes_]. *)
Definition le_fit (values : list string) : LabelEncoder :=
  mkLabelEncoder (sort_strings (nodup string_dec values)).

Fixpoint index_of (v : string) (l : list string) : option nat :=
  match l with
  | [] => None
  | x :: l' =>
      if String.eqb v x then Some 0%nat
      else option_map S (index_of v l')
  end.

(** [le.transform([v])[0]]; [None] is the [ValueError] on an unseen label. *)
Definition le_transform (le : LabelEncoder) (v : string) : option Z :=
  option_map Z.of_nat (index_of v (classes_ le)).

(** [le.inverse_transform([code])[0]]; [None] is the error on a code out
    of range. *)
Definition le_inverse_transform (le : LabelEncoder) (code : Z) : option string :=
  if code <? 0 then None else nth_error (classes_ le) (Z.to_nat code).

(** [le.fit_transform(column)] *)
Definition le_fit_transform (values : list string) : LabelEncoder * list Z :=
  let le := le_fit values in
  (le, map (fun v => match le_transform le v with Some c => c | None => 0 end)
           values).

Module FeatureEngineering.
(** The nested [categorize_advance_booking] of [feature_engineering]. *)
Definition categorize_advance_booking (days : Z) : Z :=
  if days <? 7 then 0
  else if days <? 30 then 1
  else if days <? 90 then 2
  else 3.

(** The nested [time_to_minutes] of [feature_engineering]: [np.nan] on
    failure ([None] input is a NaN cell, whose [.split] raises). *)
Definition time_to_minutes (time_str : option string) : option Z :=
  match time_str with
  | Some s => parse_hh_mm s
  | None => None
  end.

(** [categorize_time_of_day]; a NaN hour fails every comparison. *)
Definition categorize_time_of_day (minutes : option Z) : Z :=
  match minutes with
  | None => 3
  | Some m =>
      let hour := m / 60 in
      if (6 <=? hour) && (hour <? 12) then 0
      else if (12 <=? hour) && (hour <? 18) then 1
      else if (18 <=? hour) && (hour <? 22) then 2
      else 3
  end.

(** [flight_duration = arrival_minutes - departure_minutes], then
    [df.loc[flight_duration < 0, 'flight_duration'] += 24 * 60]. *)
Definition flight_duration (dep arr : option Z) : option Z :=
  match dep, arr with
  | Some d, Some a =>
      let fd := a - d in if fd <? 0 then Some (fd + 24 * 60) else Some fd
  | _, _ => None
  end.
End FeatureEngineering.

Module PredictSingleFlight.
(** The nested [categorize_advance_booking] of [predict_single_flight]. *)
Definition categorize_advance_booking (days : Z) : Z :=
  if days <? 7 then 0
  else if days <? 30 then 1
  else if days <? 90 then 2
  else 3.

(** The nested [time_to_minutes] of [predict_single_flight]: 0 on failure. *)
Definition time_to_minutes (time_str : string) : Z :=
  match parse_hh_mm time_str with
  | Some m => m
  | None => 0
  end.

Definition categorize_time_of_day (minutes : Z) : Z :=
  let hour := minutes / 60 in
  if (6 <=? hour) && (hour <? 12) then 0
  else if (12 <=? hour) && (hour <? 18) then 1
  else if (18 <=? hour) && (hour <? 22) then 2
  else 3.
End PredictSingleFlight.

(** Insertion sort on integers, for the quantiles. *)
Fixpoint insert_Z (x : Z) (l : list Z) : list Z :=
  match l with
  | [] => [x]
  | y :: l' => if x <=? y then x :: l else y :: insert_Z x l'
  end.

Fixpoint sort_Z (l : list Z) : list Z :=
  match l with
  | [] => []
  | x :: l' => insert_Z x (sort_Z l')
  end.

Open Scope Q_scope.

Definition Qlt_bool (a b : Q) : bool := negb (Qle_bool b a).

(** [Series.quantile(q)] (linear interpolation, NaN skipped): [None] is the
    NaN of an empty series. *)
Definition quantile (q : Q) (xs : list Z) : option Q :=
  let s := sort_Z xs in
  let n := Z.of_nat (List.length s) in
  if (n =? 0)%Z then None
  else
    let pos := q * inject_Z (n - 1) in
    let lo := Qfloor pos in
    let frac := pos - inject_Z lo in
    let hi := Z.min (lo + 1) (n - 1) in
    let xlo := inject_Z (nth (Z.to_nat lo) s 0%Z) in
    let xhi := inject_Z (nth (Z.to_nat hi) s 0%Z) in
    Some (xlo + frac * (xhi - xlo)).

Definition sum_Q (xs : list Q) : Q := fold_right Qplus 0 xs.

Definition series_min (xs : list Z) : option Q :=
  match xs with
  | [] => None
  | x :: l => Some (inject_Z (fold_left Z.min l x))
  end.

Definition series_max (xs : list Z) : option Q :=
  match xs with
  | [] => None
  | x :: l => Some (inject_Z (fold_left Z.max l x))
  end.

Definition series_mean (xs : list Z) : option Q :=
  match xs with
  | [] => None
  | _ => Some (sum_Q (map inject_Z xs) / inject_Z (Z.of_nat (List.length xs)))
  end.

Section Pipeline.

(** pandas datetimes and the parts of pandas the cleaner uses on them. *)
Variable DT : Type.
(** [pd.to_datetime(s)]: [None] where it raises (or, with
    [errors='coerce'], yields [NaT]). *)
Variable to_datetime : string -> option DT.
(** Square root of floating point arithmetic, for [Series.std()]. *)
Variable qsqrt : Q -> Q.
(** [.dt.hour], [.dt.dayofweek], [.dt.month] *)
Variables dt_hour dt_dayofweek dt_month : DT -> Z.
(** [(later - earlier).dt.days] *)
Variable dt_days_between : DT -> DT -> Z.
(** [ts.tz is not None]: the timestamp carries a UTC offset. *)
Variable dt_tz_aware : DT -> bool.

(** [Series.std()] with [ddof=1]. *)
Definition series_std (xs : list Z) : option Q :=
  match series_mean xs with
  | None => None
  | Some m =>
      let n := Z.of_nat (List.length xs) in
      if (n <? 2)%Z then None
      else Some (qsqrt (sum_Q (map (fun x => (inject_Z x - m) * (inject_Z x - m)) xs)
                        / inject_Z (n - 1)))
  end.

(** One row of the CSV, with the parsed or unparsed form of the two date
    columns as type parameters: [C] for [create_at], [F] for [flight_date]. *)
Record Row (C F : Type) := mkRow {
  create_at : C;
  flight_number : option string;
  type_of_plane : option string;
  departure_airport : option string;
  arrival_airport : option string;
  flight_date : F;
  departure_time : option string;
  arrival_time : option string;
  classes : option string;
  price : option Z
}.

Arguments mkRow {C F}.
Arguments create_at {C F}.
Arguments flight_number {C F}.
Arguments type_of_plane {C F}.
Arguments departure_airport {C F}.
Arguments arrival_airport {C F}.
Arguments flight_date {C F}.
Arguments departure_time {C F}.
Arguments arrival_time {C F}.
Arguments classes {C F}.
Arguments price {C F}.

(** The table as [pd.read_csv(..., names=column_names, skiprows=1)] reads it. *)
Definition RawRow := Row (option string) (option string).
(** A row after the two date columns were parsed. *)
Definition CleanRow := Row DT DT.

Definition raw_row_eq_dec : forall r1 r2 : RawRow, {r1 = r2} + {r1 <> r2}.
Proof.
  pose proof (option_eq_dec := fun A (d : forall x y : A, {x = y} + {x <> y}) =>
    ltac:(intros o1 o2; decide equality) : forall o1 o2 : option A, {o1 = o2} + {o1 <> o2}).
  intros [] []; unfold RawRow in *.
  repeat (decide equality; try apply string_dec; try apply Z.eq_dec).
Defined.

(** [df.drop_duplicates()]: the first occurrence of each row is kept. *)
Fixpoint drop_duplicates_aux (seen : list RawRow) (l : list RawRow) : list RawRow :=
  match l with
  | [] => []
  | r :: l' =>
      if in_dec raw_row_eq_dec r seen then drop_duplicates_aux seen l'
      else r :: drop_duplicates_aux (r :: seen) l'
  end.

Definition drop_duplicates (l : list RawRow) : list RawRow :=
  drop_duplicates_aux [] l.

Definition prices {C F} (rows : list (Row C F)) : list Z :=
  flat_map (fun r => match price r with Some p => [p] | None => [] end) rows.

Record PriceStats := mkPriceStats {
  ps_min : option Q; ps_max : option Q; ps_mean : option Q;
  ps_std : option Q; ps_Q1 : option Q; ps_Q3 : option Q
}.

(** [(df['price'] >= lower_bound) & (df['price'] <= upper_bound)]: a NaN on
    either side makes the comparison false. *)
Definition in_bounds (lb ub : option Q) (p : option Z) : bool :=
  match lb, ub, p with
  | Some l, Some u, Some x => Qle_bool l (inject_Z x) && Qle_bool (inject_Z x) u
  | _, _, _ => false
  end.

Definition outlier_bounds (Q1 Q3 : option Q) : option Q * option Q :=
  match Q1, Q3 with
  | Some q1, Some q3 =>
      let IQR := q3 - q1 in
      (Some (q1 - (3 # 2) * IQR), Some (q3 + (3 # 2) * IQR))
  | _, _ => (None, None)
  end.

Definition stats_of {C F} (rows : list (Row C F)) (Q1 Q3 : option Q) : PriceStats :=
  let ps := prices rows in
  mkPriceStats (series_min ps) (series_max ps) (series_mean ps) (series_std ps) Q1 Q3.

(** [pd.to_datetime(df['create_at'], errors='coerce')] then
    [dropna(subset=['create_at'])]. *)
Definition parse_create_at {F} (r : Row (option string) F) : option (Row DT F) :=
  match create_at r with
  | Some s =>
      match to_datetime s with
      | Some d =>
          Some (mkRow d (flight_number r) (type_of_plane r) (departure_airport r)
                  (arrival_airport r) (flight_date r) (departure_time r)
                  (arrival_time r) (classes r) (price r))
      | None => None
      end
  | None => None
  end.

(** The nested [parse_flight_date]. *)
Definition parse_flight_date (date_str : option string) : option DT :=
  match date_str with
  | Some s => if contains_char "T" s then to_datetime s else None
  | None => None
  end.

(** [df['flight_date'].apply(parse_flight_date)] then
    [dropna(subset=['flight_date'])]. *)
Definition parse_flight_date_row {C} (r : Row C (option string)) : option (Row C DT) :=
  match parse_flight_date (flight_date r) with
  | Some d =>
      Some (mkRow (create_at r) (flight_number r) (type_of_plane r)
              (departure_airport r) (arrival_airport r) d (departure_time r)
              (arrival_time r) (classes r) (price r))
  | None => None
  end.

(** [str.strip()] on [type_of_plane], [!= ''], then
    [dropna(subset=['type_of_plane'])]. *)
Definition clean_type_of_plane {C F} (r : Row C F) : option (Row C F) :=
  match type_of_plane r with
  | Some s =>
      let t := strip s in
      if String.eqb t "" then None
      else Some (mkRow (create_at r) (flight_number r) (Some t)
                   (departure_airport r) (arrival_airport r) (flight_date r)
                   (departure_time r) (arrival_time r) (classes r) (price r))
  | None => None
  end.

Definition filter_map {A B} (f : A -> option B) (l : list A) : list B :=
  flat_map (fun x => match f x with Some y => [y] | None => [] end) l.

(** [load_and_preprocess_data], from the table [pd.read_csv] returns:
    the cleaned [self.df] and [self.price_stats]. *)
Definition load_and_preprocess_data (table : list RawRow) : list CleanRow * PriceStats :=
  let df := drop_duplicates table in
  let Q1 := quantile (1 # 4) (prices df) in
  let Q3 := quantile (3 # 4) (prices df) in
  let '(lower_bound, upper_bound) := outlier_bounds Q1 Q3 in
  let df := filter (fun r => in_bounds lower_bound upper_bound (price r)) df in
  let price_stats := stats_of df Q1 Q3 in
  let df := filter_map parse_create_at df in
  let df := filter_map parse_flight_date_row df in
  let df := filter_map clean_type_of_plane df in
  (df, price_stats).

(** The order of operations as claim C1 states it (not the code): every
    row filter first, then the statistics and the outlier filter. *)
Definition load_and_preprocess_claimed_order (table : list RawRow)
  : list CleanRow * PriceStats :=
  let df := drop_duplicates table in
  let df := filter_map parse_create_at df in
  let df := filter_map parse_flight_date_row df in
  let df := filter_map clean_type_of_plane df in
  let Q1 := quantile (1 # 4) (prices df) in
  let Q3 := quantile (3 # 4) (prices df) in
  let '(lower_bound, upper_bound) := outlier_bounds Q1 Q3 in
  let price_stats := stats_of df Q1 Q3 in
  let df := filter (fun r => in_bounds lower_bound upper_bound (price r)) df in
  (df, price_stats).

(* ------------------------------------------------------------------ *)
(** ** [feature_engineering] *)

Definition categorical_cols : list string :=
  ["flight_number"; "departure_airport"; "arrival_airport"; "classes";
   "type_of_plane"; "airline"].

Definition all_feature_columns : list string :=
  ["flight_number_encoded"; "departure_airport_encoded";
   "arrival_airport_encoded"; "classes_encoded"; "type_of_plane_encoded";
   "airline_encoded";
   "create_hour"; "create_day_of_week"; "create_month";
   "flight_month"; "flight_day_of_week";
   "days_in_advance"; "departure_minutes"; "flight_duration";
   "is_weekend_booking"; "is_weekend_flight";
   "booking_category"; "departure_time_category";
   "route_popularity"; "airline_popularity"].

Definition opt_str_eqb (a b : option string) : bool :=
  match a, b with
  | Some x, Some y => String.eqb x y
  | _, _ => false
  end.

(** [df.groupby(['departure_airport', 'arrival_airport']).size()] looked up
    with [route_counts.get(..., 0)]; groupby drops NaN keys. *)
Definition route_count (df : list CleanRow) (r : CleanRow) : Z :=
  Z.of_nat (List.length (filter (fun r' =>
    opt_str_eqb (departure_airport r') (departure_airport r) &&
    opt_str_eqb (arrival_airport r') (arrival_airport r)) df)).

(** [df['flight_number'].str[:2]] *)
Definition airline_of {C F} (r : Row C F) : option string :=
  option_map prefix2 (flight_number r).

(** [df['airline'].map(df['airline'].value_counts()).fillna(0)] *)
Definition airline_count (df : list CleanRow) (r : CleanRow) : Z :=
  Z.of_nat (List.length (filter (fun r' => opt_str_eqb (airline_of r') (airline_of r)) df)).

(** [Series.astype(str)]: NaN becomes ['nan']. *)
Definition astype_str (v : option string) : string :=
  match v with Some s => s | None => "nan" end.

Definition categorical_value (col : string) (r : CleanRow) : option string :=
  if String.eqb col "flight_number" then flight_number r
  else if String.eqb col "departure_airport" then departure_airport r
  else if String.eqb col "arrival_airport" then arrival_airport r
  else if String.eqb col "classes" then classes r
  else if String.eqb col "type_of_plane" then type_of_plane r
  else airline_of r.

Definition b2z (b : bool) : Z := if b then 1%Z else 0%Z.

(** The derived feature columns of one row, by name ([None] is NaN). *)
Definition derived_features (df : list CleanRow) (r : CleanRow)
  : list (string * option Z) :=
  let create_day_of_week := dt_dayofweek (create_at r) in
  let flight_day_of_week := dt_dayofweek (flight_date r) in
  let days_in_advance := dt_days_between (flight_date r) (create_at r) in
  let departure_minutes := FeatureEngineering.time_to_minutes (departure_time r) in
  let arrival_minutes := FeatureEngineering.time_to_minutes (arrival_time r) in
  [("create_hour", Some (dt_hour (create_at r)));
   ("create_day_of_week", Some create_day_of_week);
   ("create_month", Some (dt_month (create_at r)));
   ("flight_month", Some (dt_month (flight_date r)));
   ("flight_day_of_week", Some flight_day_of_week);
   ("days_in_advance", Some days_in_advance);
   ("is_weekend_booking", Some (b2z (5 <=? create_day_of_week)%Z));
   ("is_weekend_flight", Some (b2z (5 <=? flight_day_of_week)%Z));
   ("booking_category",
      Some (FeatureEngineering.categorize_advance_booking days_in_advance));
   ("departure_minutes", departure_minutes);
   ("arrival_minutes", arrival_minutes);
   ("flight_duration",
      FeatureEngineering.flight_duration departure_minutes arrival_minutes);
   ("departure_time_category",
      Some (FeatureEngineering.categorize_time_of_day departure_minutes));
   ("route_popularity", Some (route_count df r));
   ("airline_popularity", Some (airline_count df r))].

Fixpoint assoc {A} (k : string) (l : list (string * A)) : option A :=
  match l with
  | [] => None
  | (k', v) :: l' => if String.eqb k k' then Some v else assoc k l'
  end.

Record PopStats := mkPopStats { pop_mean : option Q; pop_std : option Q }.

Record FeatureOutput := mkFeatureOutput {
  fo_X : list (list (string * Z));
  fo_y : list Z;
  fo_feature_columns : list string;
  fo_label_encoders : list (string * LabelEncoder);
  fo_route_popularity_stats : PopStats;
  fo_airline_popularity_stats : PopStats
}.

(** The full row of feature columns, encoded categoricals first. *)
Definition feature_row (df : list CleanRow) (encoders : list (string * LabelEncoder))
    (r : CleanRow) : list (string * option Z) :=
  map (fun c =>
         (c, match assoc c (derived_features df r) with
             | Some v => v
             | None =>
                 (* an [<col>_encoded] column *)
                 match find (fun col => String.eqb c (col ++ "_encoded")) categorical_cols with
                 | Some col =>
                     match assoc col encoders with
                     | Some le => le_transform le (astype_str (categorical_value col r))
                     | None => None
                     end
                 | None => None
                 end
             end)) all_feature_columns.

(** [mask = ~(X.isnull().any(axis=1) | y.isnull())] and the selection. *)
Definition complete_row (fr : list (string * option Z)) (y : option Z)
  : option (list (string * Z) * Z) :=
  match y with
  | None => None
  | Some p =>
      fold_right (fun '(c, v) acc =>
        match v, acc with
        | Some x, Some (row, p') => Some ((c, x) :: row, p')
        | _, _ => None
        end) (Some ([], p)) fr
  end.

Definition feature_engineering (df : list CleanRow) : FeatureOutput :=
  let encoders := map (fun col =>
       (col, le_fit (map (fun r => astype_str (categorical_value col r)) df)))
       categorical_cols in
  let rows := filter_map (fun r => complete_row (feature_row df encoders r) (price r)) df in
  let route_pop := map (route_count df) df in
  let airline_pop := map (airline_count df) df in
  mkFeatureOutput (map fst rows) (map snd rows) all_feature_columns encoders
    (mkPopStats (series_mean route_pop) (series_std route_pop))
    (mkPopStats (series_mean airline_pop) (series_std airline_pop)).

(* ------------------------------------------------------------------ *)
(** ** The predictor object, [save_model]/[load_model] and
    [predict_single_flight] *)

(** A fitted regressor, as the function [model.predict] computes on one
    row of features. *)
Definition Regressor := list Q -> Q.

(** The attributes of [FlightPricePredictor] that prediction reads.
    [price_stats = None] stands for a falsy value ([None] or [{}]);
    a popularity statistics [None] stands for [{}]. *)
Record Predictor := mkPredictor {
  best_model : option Regressor;
  model_type : option string;
  feature_columns : option (list string);
  label_encoders : list (string * LabelEncoder);
  price_stats : option PriceStats;
  route_popularity_stats : option PopStats;
  airline_popularity_stats : option PopStats
}.

(** [FlightPricePredictor.__init__] *)
Definition init_predictor : Predictor :=
  mkPredictor None None None [] None None None.

(** The pickled dict; an outer [None] of an [md_..._stats] field is a key
    absent from an older artifact.  The [scaler] is never used by
    prediction and is left out. *)
Record ModelData := mkModelData {
  md_model : option Regressor;
  md_model_type : option string;
  md_feature_columns : option (list string);
  md_label_encoders : list (string * LabelEncoder);
  md_price_stats : option (option PriceStats);
  md_route_popularity_stats : option (option PopStats);
  md_airline_popularity_stats : option (option PopStats)
}.

(** [save_model] *)
Definition save_model (p : Predictor) : ModelData :=
  mkModelData (best_model p) (model_type p) (feature_columns p) (label_encoders p)
    (Some (price_stats p)) (Some (route_popularity_stats p))
    (Some (airline_popularity_stats p)).

(** [load_model] *)
Definition load_model (md : ModelData) : Predictor :=
  mkPredictor (md_model md) (md_model_type md) (md_feature_columns md)
    (md_label_encoders md)
    (match md_price_stats md with Some ps => ps | None => None end)
    (match md_route_popularity_stats md with
     | Some s => s | None => Some (mkPopStats (Some 100) (Some 50)) end)
    (match md_airline_popularity_stats md with
     | Some s => s | None => Some (mkPopStats (Some 50) (Some 25)) end).

(** Exceptions and printed messages. *)
Inductive exn :=
| ValueError (msg : string)
| KeyError (keys : list string)
| TypeError (msg : string).

Inductive message :=
| WarnUnseen (col value : string)
| FeatureMissing (col : string).

Inductive result (A : Type) :=
| Ok (a : A)
| Err (e : exn).
Arguments Ok {A}. Arguments Err {A}.

(** The effects of [predict_single_flight]: an exception and the printed
    messages. *)
Definition M (A : Type) := list message -> result A * list message.

Definition ret {A} (a : A) : M A := fun log => (Ok a, log).
Definition raise {A} (e : exn) : M A := fun log => (Err e, log).
Definition tell (m : message) : M unit := fun log => (Ok tt, List.app log [m]).
Definition bind {A B} (c : M A) (k : A -> M B) : M B :=
  fun log => match c log with
             | (Ok a, log') => k a log'
             | (Err e, log') => (Err e, log')
             end.

Notation "x <- c ;; k" := (bind c (fun x => k))
  (at level 61, c at next level, right associativity).
Notation "c ;;; k" := (bind c (fun _ => k)) (at level 61, right associativity).

(** A cell of the one-row [df_input]. *)
Inductive Cell :=
| CStr (s : string)
| CNum (x : option Q)
| CDate (d : DT).

(** The one-row frame: columns in order. *)
Definition Frame := list (string * Cell).

(** [df_input[col] = v]: an existing column is replaced in place, a new
    one is appended. *)
Fixpoint set_col (col : string) (v : Cell) (df : Frame) : Frame :=
  match df with
  | [] => [(col, v)]
  | (c, w) :: df' => if String.eqb col c then (c, v) :: df' else (c, w) :: set_col col v df'
  end.

(** [df_input[col]], raising [KeyError] on an absent column. *)
Definition get_col (col : string) (df : Frame) : M Cell :=
  match assoc col df with
  | Some v => ret v
  | None => raise (KeyError [col])
  end.

Definition num (z : Z) : Cell := CNum (Some (inject_Z z)).

(** The flight record the caller passes, a dict of strings. *)
Definition Request := list (string * string).

(** [pd.to_datetime(df_input[col])] *)
Definition to_datetime_col (col : string) (df : Frame) : M Frame :=
  v <- get_col col df ;;
  match v with
  | CStr s =>
      match to_datetime s with
      | Some d => ret (set_col col (CDate d) df)
      | None => raise (ValueError "unparsable datetime")
      end
  | CDate d => ret df
  | CNum _ => raise (ValueError "unparsable datetime")
  end.

Definition get_date (col : string) (df : Frame) : M DT :=
  v <- get_col col df ;;
  match v with
  | CDate d => ret d
  | _ => raise (TypeError "not a datetime")
  end.

(** [df_input[col].apply(time_to_minutes)]: a non-string cell makes
    [.split] raise, which the nested function turns into 0. *)
Definition minutes_of (c : Cell) : Z :=
  match c with
  | CStr s => PredictSingleFlight.time_to_minutes s
  | _ => 0
  end.

Definition get_mean (st : option PopStats) : M Cell :=
  match st with
  | Some ps => ret (CNum (pop_mean ps))
  | None => raise (KeyError ["mean"])
  end.

(** [(df_input['flight_date'] - df_input['create_at']).dt.days]: pandas
    refuses to subtract a tz-naive and a tz-aware timestamp. *)
Definition sub_dates (later earlier : DT) : M Z :=
  if Bool.eqb (dt_tz_aware later) (dt_tz_aware earlier)
  then ret (dt_days_between later earlier)
  else raise (TypeError "Cannot subtract tz-naive and tz-aware datetime-like objects").

(** Lines 359-412: every derived feature of the single record. *)
Definition derive_features (self : Predictor) (flight_data : Request) : M Frame :=
  let df := map (fun '(k, v) => (k, CStr v)) flight_data in
  df <- to_datetime_col "create_at" df ;;
  df <- to_datetime_col "flight_date" df ;;
  ca <- get_date "create_at" df ;;
  fd <- get_date "flight_date" df ;;
  let create_day_of_week := dt_dayofweek ca in
  let flight_day_of_week := dt_dayofweek fd in
  let df := set_col "create_hour" (num (dt_hour ca)) df in
  let df := set_col "create_day_of_week" (num create_day_of_week) df in
  let df := set_col "create_month" (num (dt_month ca)) df in
  let df := set_col "flight_month" (num (dt_month fd)) df in
  let df := set_col "flight_day_of_week" (num flight_day_of_week) df in
  days_in_advance <- sub_dates fd ca ;;
  let df := set_col "days_in_advance" (num days_in_advance) df in
  let df := set_col "is_weekend_booking" (num (b2z (5 <=? create_day_of_week)%Z)) df in
  let df := set_col "is_weekend_flight" (num (b2z (5 <=? flight_day_of_week)%Z)) df in
  let df := set_col "booking_category"
              (num (PredictSingleFlight.categorize_advance_booking days_in_advance)) df in
  dt <- get_col "departure_time" df ;;
  let departure_minutes := minutes_of dt in
  let df := set_col "departure_minutes" (num departure_minutes) df in
  at_ <- get_col "arrival_time" df ;;
  let arrival_minutes := minutes_of at_ in
  let df := set_col "arrival_minutes" (num arrival_minutes) df in
  let fd0 := (arrival_minutes - departure_minutes)%Z in
  let flight_duration := if (fd0 <? 0)%Z then (fd0 + 24 * 60)%Z else fd0 in
  let df := set_col "flight_duration" (num flight_duration) df in
  let df := set_col "departure_time_category"
              (num (PredictSingleFlight.categorize_time_of_day departure_minutes)) df in
  rp <- get_mean (route_popularity_stats self) ;;
  let df := set_col "route_popularity" rp df in
  fn <- get_col "flight_number" df ;;
  match fn with
  | CStr s =>
      let df := set_col "airline" (CStr (prefix2 s)) df in
      ap <- get_mean (airline_popularity_stats self) ;;
      ret (set_col "airline_popularity" ap df)
  | _ => raise (TypeError "Can only use .str accessor with string values")
  end.

(** [df_input[col].astype(str)] on the string cells the categorical
    columns hold. *)
Definition cell_str (c : Cell) : string :=
  match c with CStr s => s | _ => "" end.

(** One iteration of the encoding loop (lines 417-426). *)
Definition encode_col (self : Predictor) (df : Frame) (col : string) : M Frame :=
  match assoc col df, assoc col (label_encoders self) with
  | Some v, Some le =>
      match le_transform le (cell_str v) with
      | Some code => ret (set_col (col ++ "_encoded") (num code) df)
      | None =>
          if negb (Nat.eqb (List.length (classes_ le)) 0) then
            let df := set_col (col ++ "_encoded") (num 0) df in
            tell (WarnUnseen col (cell_str v)) ;;; ret df
          else ret (set_col (col ++ "_encoded") (num 0) df)
      end
  | _, _ => ret df
  end.

Fixpoint foldM {A B} (f : A -> B -> M A) (a : A) (l : list B) : M A :=
  match l with
  | [] => ret a
  | b :: l' => a' <- f a b ;; foldM f a' l'
  end.

Definition encode_categoricals (self : Predictor) (df : Frame) : M Frame :=
  foldM (encode_col self) df categorical_cols.

Fixpoint iterM {B} (f : B -> M unit) (l : list B) : M unit :=
  match l with
  | [] => ret tt
  | b :: l' => f b ;;; iterM f l'
  end.

(** [fillna(0)] then the conversion to a float array. *)
Definition cell_value (c : Cell) : M Q :=
  match c with
  | CNum (Some x) => ret x
  | CNum None => ret 0
  | _ => raise (ValueError "could not convert to float")
  end.

Fixpoint mapM {A B} (f : A -> M B) (l : list A) : M (list B) :=
  match l with
  | [] => ret []
  | a :: l' => b <- f a ;; bs <- mapM f l' ;; ret (b :: bs)
  end.

(** Lines 428-437: the [MISSING!] report, then
    [X_input = df_input[self.feature_columns].fillna(0)]. *)
Definition assemble (self : Predictor) (df : Frame) : M (list Q) :=
  match feature_columns self with
  | None => raise (TypeError "'NoneType' object is not iterable")
  | Some cols =>
      iterM (fun col => match assoc col df with
                        | Some _ => ret tt
                        | None => tell (FeatureMissing col)
                        end) cols ;;;
      match filter (fun col => match assoc col df with Some _ => false | None => true end) cols with
      | [] => mapM (fun col => v <- get_col col df ;; cell_value v) cols
      | missing => raise (KeyError missing)
      end
  end.

(** Python's [max(a, b)] and [min(a, b)]: the first argument unless the
    second compares greater (smaller); NaN compares false. *)
Definition py_max (a : option Q) (b : Q) : option Q :=
  match a with Some x => if Qlt_bool x b then Some b else Some x | None => None end.
Definition py_min (a : option Q) (b : Q) : option Q :=
  match a with Some x => if Qlt_bool b x then Some b else Some x | None => None end.

(** [np.clip(a, lo, hi)] = [np.minimum(np.maximum(a, lo), hi)]; a NaN bound
    gives NaN. *)
Definition np_clip (a : Q) (lo hi : option Q) : option Q :=
  match lo, hi with
  | Some l, Some h =>
      let m := if Qlt_bool a l then l else a in
      Some (if Qlt_bool h m then h else m)
  | _, _ => None
  end.

(** Lines 443-447; [None] is a NaN result. *)
Definition clip_prediction (ps : option PriceStats) (prediction : Q) : option Q :=
  match ps with
  | Some st =>
      let min_price := py_max (ps_min st) 100000 in
      let max_price := py_min (ps_max st) 50000000 in
      np_clip prediction min_price max_price
  | None => Some prediction
  end.

(** [predict_single_flight] up to the feature vector. *)
Definition build_input (self : Predictor) (flight_data : Request) : M (list Q) :=
  df <- derive_features self flight_data ;;
  df <- encode_categoricals self df ;;
  assemble self df.

(** [predict_single_flight] *)
Definition predict_single_flight (self : Predictor) (flight_data : Request) : M (option Q) :=
  match best_model self with
  | None => raise (ValueError "? model")
  | Some model =>
      X_input <- build_input self flight_data ;;
      let prediction := model X_input in
      ret (clip_prediction (price_stats self) prediction)
  end.

End Pipeline.

Arguments mkRow {C F}.
Arguments create_at {C F}.
Arguments flight_number {C F}.
Arguments type_of_plane {C F}.
Arguments departure_airport {C F}.
Arguments arrival_airport {C F}.
Arguments flight_date {C F}.
Arguments departure_time {C F}.
Arguments arrival_time {C F}.
Arguments classes {C F}.
Arguments price {C F}.
Arguments Ok {A}. Arguments Err {A}.

(* ------------------------------------------------------------------ *)
(** ** [train_and_evaluate_models]: the selection of the best model *)

(** The entry [self.results[name]]; the fit and the metrics themselves are
    sklearn's and enter as data. *)
Record CandidateResult := mkCandidateResult {
  cr_model : Regressor;
  cv_mae_mean : Q;
  cv_mae_std : Q;
  train_mae : Q;
  test_mae : Q;
  train_rmse : Q;
  test_rmse : Q;
  train_r2 : Q;
  test_r2 : Q;
  overfitting_ratio : option Q
}.

Definition model_names : list string :=
  ["Random Forest"; "Gradient Boosting"; "Decision Tree"].

(** [d[k] = v] on a dict kept in insertion order. *)
Fixpoint dict_set {A} (k : string) (v : A) (d : list (string * A)) : list (string * A) :=
  match d with
  | [] => [(k, v)]
  | (k', w) :: d' => if String.eqb k k' then (k', v) :: d' else (k', w) :: dict_set k v d'
  end.

(** Python's [min(iterable, key=f)]: the first element with the least key. *)
Fixpoint min_key_aux {A} (f : A -> Q) (best : A) (l : list A) : A :=
  match l with
  | [] => best
  | x :: l' => if Qlt_bool (f x) (f best) then min_key_aux f x l' else min_key_aux f best l'
  end.

Definition py_min_key {A} (f : A -> Q) (l : list A) : option A :=
  match l with
  | [] => None
  | x :: l' => Some (min_key_aux f x l')
  end.

Definition results_cv (results : list (string * CandidateResult)) (k : string) : Q :=
  match assoc k results with Some r => cv_mae_mean r | None => 0 end.

(** The evaluation loop fills [self.results] (starting from [results0]);
    then [best_model_name = min(self.results.keys(), key=...cv_mae_mean)].
    Returns [(best_model_name, self.best_model)] and [self.results]. *)
Definition train_and_evaluate_models (results0 : list (string * CandidateResult))
    (evaluate : string -> CandidateResult)
  : option (string * Regressor) * list (string * CandidateResult) :=
  let results := fold_left (fun d name => dict_set name (evaluate name) d)
                   model_names results0 in
  match py_min_key (results_cv results) (map fst results) with
  | Some best_model_name =>
      match assoc best_model_name results with
      | Some r => (Some (best_model_name, cr_model r), results)
      | None => (None, results)
      end
  | None => (None, results)
  end.

(* ------------------------------------------------------------------ *)
(** ** [run_complete_pipeline] *)

(** Lines 531-545 on a fresh predictor: [load_and_preprocess_data],
    [analyze_data_distribution] (printing only), [feature_engineering],
    [train_and_evaluate_models] and [save_model].  [fit X y name] stands for
    the split, the cross-validation and the metrics of the candidate [name]
    trained on the feature matrix [X] and target [y].  Returns the pickled
    bundle and [self.results]. *)
Definition run_complete_pipeline {DT} (to_datetime : string -> option DT)
    (qsqrt : Q -> Q) (dt_hour dt_dayofweek dt_month : DT -> Z)
    (dt_days_between : DT -> DT -> Z)
    (fit : list (list (string * Z)) -> list Z -> string -> CandidateResult)
    (table : list RawRow) : ModelData * list (string * CandidateResult) :=
  let '(df, price_stats) := load_and_preprocess_data DT to_datetime qsqrt table in
  let fe := feature_engineering DT qsqrt dt_hour dt_dayofweek dt_month dt_days_between df in
  let '(best, results) := train_and_evaluate_models [] (fit (fo_X fe) (fo_y fe)) in
  let self := mkPredictor (option_map snd best) (option_map fst best)
                (Some (fo_feature_columns fe)) (fo_label_encoders fe) (Some price_stats)
                (Some (fo_route_popularity_stats fe))
                (Some (fo_airline_popularity_stats fe)) in
  (save_model self, results).

(* ------------------------------------------------------------------ *)
(** ** Concrete instances

    Datetimes are day numbers; [to_datetime] reads the part before a ['T']
    as an integer.  Only the witnesses and counterexamples use them. *)

Definition ex_to_datetime (s : string) : option Z :=
  match split "T" s with d :: _ => py_int d | [] => None end.
Definition ex_dt_hour (d : Z) : Z := 0.
Definition ex_dt_dayofweek (d : Z) : Z := (d mod 7)%Z.
Definition ex_dt_month (d : Z) : Z := 1.
Definition ex_dt_days_between (later earlier : Z) : Z := (later - earlier)%Z.
(** Day numbers carry no UTC offset. *)
Definition ex_dt_tz_aware (d : Z) : bool := false.
Definition ex_qsqrt (x : Q) : Q := x.

Definition ex_req : Request :=
  [("flight_number", "VJ1198"); ("departure_airport", "SGN");
   ("arrival_airport", "HAN"); ("departure_time", "08:00");
   ("arrival_time", "10:15"); ("classes", "Eco");
   ("type_of_plane", "Airbus A321"); ("create_at", "0");
   ("flight_date", "45T14")].

(** [ex_req] without its ["classes"] key. *)
Definition ex_req_no_class : Request :=
  [("flight_number", "VJ1198"); ("departure_airport", "SGN");
   ("arrival_airport", "HAN"); ("departure_time", "08:00");
   ("arrival_time", "10:15");
   ("type_of_plane", "Airbus A321"); ("create_at", "0");
   ("flight_date", "45T14")].

Definition ex_encoders : list (string * LabelEncoder) :=
  map (fun c => (c, le_fit ["SGN"; "HAN"; "VJ1198"; "VJ"; "Eco"; "Airbus A320"]))
    categorical_cols.

(** The sum of the features, as a stand-in regressor. *)
Definition ex_model : Regressor := fun X => fold_right Qplus 0 X.

(** A bundle trained on a degenerate table whose prices lie in
    [50000, 60000]. *)
Definition ex_md_degenerate : ModelData :=
  mkModelData (Some ex_model) (Some "Decision Tree") (Some all_feature_columns)
    ex_encoders
    (Some (Some (mkPriceStats (Some 50000) (Some 60000) None None None None)))
    (Some (Some (mkPopStats (Some 10) None))) (Some (Some (mkPopStats (Some 20) None))).

(** An older bundle: no price, route or airline statistics. *)
Definition ex_md_old : ModelData :=
  mkModelData (Some ex_model) (Some "Decision Tree") (Some all_feature_columns)
    ex_encoders None None None.

Definition ex_raw_row (ca : option string) (p : Z) : RawRow :=
  mkRow ca (Some "VJ1198") (Some " Airbus A321 ") (Some "SGN") (Some "HAN")
    (Some "45T14") (Some "08:00") (Some "10:15") (Some "Eco") (Some p).

(** Three listings; the cheapest has an unparsable creation timestamp. *)
Definition ex_table : list RawRow :=
  [ex_raw_row (Some "garbled") 50; ex_raw_row (Some "0") 100;
   ex_raw_row (Some "1") 200; ex_raw_row (Some "1") 200].

(** A cleaned row whose clock times parse but are not times of day. *)
Definition ex_clean_row : CleanRow Z :=
  mkRow 0%Z (Some "VJ1198") (Some "Airbus A321") (Some "SGN") (Some "HAN")
    45%Z (Some "00:00") (Some "25:00") (Some "Eco") (Some 1500000%Z).

Definition ex_candidate (cv test : Q) : CandidateResult :=
  mkCandidateResult ex_model cv 0 0 test 0 0 0 0 None.

(** The spec's example: cross-validated MAEs 500000, 480000, 510000, with
    the second candidate worst on the test set. *)
Definition ex_evaluate (name : string) : CandidateResult :=
  if String.eqb name "Random Forest" then ex_candidate 500000 400000
  else if String.eqb name "Gradient Boosting" then ex_candidate 480000 900000
  else ex_candidate 510000 450000.

(** The same evaluation with other test-set errors. *)
Definition ex_evaluate' (name : string) : CandidateResult :=
  if String.eqb name "Random Forest" then ex_candidate 500000 1
  else if String.eqb name "Gradient Boosting" then ex_candidate 480000 2
  else ex_candidate 510000 3.


(** [ex_req] with an aircraft type the encoders of [ex_md_degenerate] know. *)
Definition ex_req_known : Request :=
  [("flight_number", "VJ1198"); ("departure_airport", "SGN");
   ("arrival_airport", "HAN"); ("departure_time", "08:00");
   ("arrival_time", "10:15"); ("classes", "Eco");
   ("type_of_plane", "Airbus A320"); ("create_at", "0");
   ("flight_date", "45T14")].

(** Training that ignores the data and reports the results of [ex_evaluate]. *)
Definition ex_fit (X : list (list (string * Z))) (y : list Z) (name : string) : CandidateResult :=
  ex_evaluate name.

(* ================================================================== *)
(** * Properties *)

(** Computes the comparisons of literal column names and the monadic
    plumbing left after a lookup was rewritten. *)
Ltac reduce_frame :=
  cbv beta iota zeta;
  cbv [String.eqb Ascii.eqb Bool.eqb andb option_map];
  cbv beta iota zeta.

Section Properties.

Variable DT : Type.
Variable to_datetime : string -> option DT.
Variable qsqrt : Q -> Q.
Variables dt_hour dt_dayofweek dt_month : DT -> Z.
Variable dt_days_between : DT -> DT -> Z.
Variable dt_tz_aware : DT -> bool.

Local Abbreviation predict :=
  (predict_single_flight DT to_datetime dt_hour dt_dayofweek dt_month dt_days_between
     dt_tz_aware).
Local Abbreviation build :=
  (build_input DT to_datetime dt_hour dt_dayofweek dt_month dt_days_between dt_tz_aware).
Local Abbreviation feature_eng :=
  (feature_engineering DT qsqrt dt_hour dt_dayofweek dt_month dt_days_between).

(* ------------------------------------------------------------------ *)
(** ** Label encoders *)

Lemma index_of_nth_error (v : string) (l : list string) (i : nat) :
  index_of v l = Some i -> nth_error l i = Some v.
Proof.
  revert i; induction l as [|x l IH]; intros i H; simpl in H; [discriminate|].
  destruct (String.eqb_spec v x) as [->|Hne].
  - injection H as <-; reflexivity.
  - destruct (index_of v l) as [j|] eqn:Hj; simpl in H; [|discriminate].
    injection H as <-; simpl; apply IH; reflexivity.
Qed.

Lemma index_of_In (v : string) (l : list string) :
  In v l -> exists i, index_of v l = Some i.
Proof.
  induction l as [|x l IH]; simpl; [tauto|].
  destruct (String.eqb_spec v x) as [->|Hne]; [eauto|].
  intros [->|Hin]; [congruence|].
  destruct (IH Hin) as [i Hi]; rewrite Hi; simpl; eauto.
Qed.

Lemma index_of_nodup (v : string) (l : list string) (i : nat) :
  NoDup l -> nth_error l i = Some v -> index_of v l = Some i.
Proof.
  revert i; induction l as [|x l IH]; intros i Hnd Hi.
  - destruct i; discriminate.
  - inversion Hnd as [|? ? Hnotin Hnd']; subst.
    destruct i as [|i]; simpl in Hi |- *.
    + injection Hi as ->; rewrite String.eqb_refl; reflexivity.
    + destruct (String.eqb_spec v x) as [->|Hne].
      * exfalso; apply Hnotin; eapply nth_error_In; eauto.
      * rewrite (IH i Hnd' Hi); reflexivity.
Qed.

Lemma insert_sorted_perm (x : string) (l : list string) :
  Permutation (insert_sorted x l) (x :: l).
Proof.
  induction l as [|y l IH]; simpl; [auto|].
  destruct (String.leb x y); [auto|].
  eapply perm_trans; [apply perm_skip, IH|apply perm_swap].
Qed.

Lemma sort_strings_perm (l : list string) : Permutation (sort_strings l) l.
Proof.
  induction l as [|x l IH]; simpl; [auto|].
  eapply perm_trans; [apply insert_sorted_perm|auto].
Qed.

Lemma le_fit_NoDup (values : list string) : NoDup (classes_ (le_fit values)).
Proof.
  unfold le_fit; simpl.
  eapply Permutation_NoDup; [symmetry; apply sort_strings_perm|apply NoDup_nodup].
Qed.

Lemma le_fit_In (values : list string) (v : string) :
  In v (classes_ (le_fit values)) <-> In v values.
Proof.
  unfold le_fit; simpl; split; intros H.
  - apply (nodup_In string_dec).
    eapply Permutation_in; [apply sort_strings_perm|exact H].
  - eapply Permutation_in; [symmetry; apply sort_strings_perm|].
    apply nodup_In; exact H.
Qed.

Lemma le_fit_roundtrip (values : list string) (v : string) :
  In v (classes_ (le_fit values)) ->
  exists code, le_transform (le_fit values) v = Some code /\
               le_inverse_transform (le_fit values) code = Some v.
Proof.
  intros Hin; destruct (index_of_In _ _ Hin) as [i Hi].
  exists (Z.of_nat i); unfold le_transform, le_inverse_transform.
  rewrite Hi; split; [reflexivity|].
  destruct (Z.ltb_spec (Z.of_nat i) 0); [lia|].
  rewrite Nat2Z.id; apply index_of_nth_error; exact Hi.
Qed.

Lemma le_fit_inverse_roundtrip (values : list string) (code : Z) (v : string) :
  le_inverse_transform (le_fit values) code = Some v ->
  le_transform (le_fit values) v = Some code.
Proof.
  unfold le_inverse_transform, le_transform.
  destruct (code <? 0)%Z eqn:Hneg; [discriminate|]; intros Hnth.
  rewrite (index_of_nodup v _ _ (le_fit_NoDup values) Hnth); simpl.
  f_equal; lia.
Qed.

Lemma assoc_map_pair {A} (f : string -> A) (cols : list string) (k : string) (a : A) :
  assoc k (map (fun c => (c, f c)) cols) = Some a -> a = f k.
Proof.
  induction cols as [|c cols IH]; simpl; [discriminate|].
  destruct (String.eqb_spec k c) as [->|_]; [congruence|exact IH].
Qed.

(** C8: every encoder [feature_engineering] fits is a bijection between its
    training vocabulary [classes_] and the codes [0 .. |classes_|-1]:
    encoding a vocabulary value and decoding the code gives the value back,
    and decoding a code and encoding the value gives the code back. *)
Theorem label_encoder_roundtrip (df : list (CleanRow DT)) (col : string) (le : LabelEncoder) :
  assoc col (fo_label_encoders (feature_eng df)) = Some le ->
  (forall v, In v (classes_ le) ->
     exists code, le_transform le v = Some code /\
                  le_inverse_transform le code = Some v) /\
  (forall code v, le_inverse_transform le code = Some v ->
     le_transform le v = Some code).
Proof.
  unfold feature_engineering, fo_label_encoders; intros H.
  apply assoc_map_pair in H; subst le.
  split; [apply le_fit_roundtrip|apply le_fit_inverse_roundtrip].
Qed.

(* ------------------------------------------------------------------ *)
(** ** Booking category *)

(** C7: on both paths [booking_category] is 0 exactly below 7 days, 1
    exactly on [7, 30), 2 exactly on [30, 90) and 3 exactly from 90 days on,
    so the four buckets partition the integers; the nested functions of
    [feature_engineering] and [predict_single_flight] agree everywhere. *)
Theorem booking_category_partition (days : Z) :
  (FeatureEngineering.categorize_advance_booking days = 0 <-> days < 7)%Z /\
  (FeatureEngineering.categorize_advance_booking days = 1 <-> 7 <= days < 30)%Z /\
  (FeatureEngineering.categorize_advance_booking days = 2 <-> 30 <= days < 90)%Z /\
  (FeatureEngineering.categorize_advance_booking days = 3 <-> 90 <= days)%Z /\
  PredictSingleFlight.categorize_advance_booking days =
    FeatureEngineering.categorize_advance_booking days.
Proof.
  unfold FeatureEngineering.categorize_advance_booking,
         PredictSingleFlight.categorize_advance_booking.
  destruct (Z.ltb_spec days 7); [|destruct (Z.ltb_spec days 30);
    [|destruct (Z.ltb_spec days 90)]];
  repeat split; intros; lia.
Qed.

(* ------------------------------------------------------------------ *)
(** ** Prediction without a model, and without price statistics *)

(** C9: a predictor whose [best_model] is unset ([__init__] leaves it so
    until training or [load_model]) raises [ValueError] on every input
    record, before printing or deriving anything. *)
Theorem predict_without_model (self : Predictor) :
  best_model self = None ->
  forall flight_data log,
    predict self flight_data log = (Err (ValueError "? model"), log).
Proof.
  intros H flight_data log; unfold predict_single_flight; rewrite H; reflexivity.
Qed.

(** C10: a bundle without a [price_stats] key loads with falsy price
    statistics, and every prediction from it is the raw model output: the
    result is exactly [model X_input] whenever the feature vector is built,
    with no clipping. *)
Theorem old_bundle_unclipped (md : ModelData) (model : Regressor) :
  md_price_stats md = None ->
  md_model md = Some model ->
  forall flight_data log,
    predict (load_model md) flight_data log =
    match build (load_model md) flight_data log with
    | (Ok X_input, log') => (Ok (Some (model X_input)), log')
    | (Err e, log') => (Err e, log')
    end.
Proof.
  intros Hps Hm flight_data log.
  assert (Hb : best_model (load_model md) = Some model)
    by (unfold load_model; simpl; exact Hm).
  assert (Hc : price_stats (load_model md) = None)
    by (unfold load_model; simpl; rewrite Hps; reflexivity).
  unfold predict_single_flight; rewrite Hb.
  unfold bind, ret; destruct (build (load_model md) flight_data log) as [[X|e] log'];
    [|reflexivity].
  rewrite Hc; reflexivity.
Qed.

(* ------------------------------------------------------------------ *)
(** ** Model selection *)

Lemma Qlt_bool_true (a b : Q) : Qlt_bool a b = true <-> a < b.
Proof.
  unfold Qlt_bool; rewrite negb_true_iff; split; intros H.
  - apply Qnot_le_lt; intros Hle; apply Qle_bool_iff in Hle; congruence.
  - destruct (Qle_bool b a) eqn:E; [|reflexivity].
    apply Qle_bool_iff in E; exfalso; apply (Qlt_not_le _ _ H E).
Qed.

Lemma Qlt_bool_false (a b : Q) : Qlt_bool a b = false <-> b <= a.
Proof.
  unfold Qlt_bool; rewrite negb_false_iff; apply Qle_bool_iff.
Qed.

Lemma min_key_aux_spec {A} (f : A -> Q) (l : list A) (best : A) :
  In (min_key_aux f best l) (best :: l) /\
  f (min_key_aux f best l) <= f best /\
  (forall x, In x l -> f (min_key_aux f best l) <= f x).
Proof.
  revert best; induction l as [|x l IH]; intros best; simpl.
  - split; [auto|split; [apply Qle_refl|tauto]].
  - destruct (Qlt_bool (f x) (f best)) eqn:Hlt.
    + apply Qlt_bool_true in Hlt.
      destruct (IH x) as (Hin & Hle & Hall).
      split; [simpl in Hin; tauto|split].
      * apply Qlt_le_weak; eapply Qle_lt_trans; eauto.
      * intros y [<-|Hy]; auto.
    + apply Qlt_bool_false in Hlt.
      destruct (IH best) as (Hin & Hle & Hall).
      split; [simpl in Hin; tauto|split; [exact Hle|]].
      intros y [<-|Hy]; [eapply Qle_trans; eauto|auto].
Qed.

Lemma min_key_aux_ext {A} (f g : A -> Q) (l : list A) (best : A) :
  (forall x, f x = g x) -> min_key_aux f best l = min_key_aux g best l.
Proof.
  intros Hfg; revert best; induction l as [|x l IH]; intros best; simpl; [reflexivity|].
  rewrite !Hfg; destruct (Qlt_bool (g x) (g best)); apply IH.
Qed.

Lemma assoc_dict_set {A} (k k' : string) (v : A) (d : list (string * A)) :
  assoc k' (dict_set k v d) = if String.eqb k' k then Some v else assoc k' d.
Proof.
  induction d as [|[k0 w] d IH]; simpl; [reflexivity|].
  destruct (String.eqb_spec k k0) as [->|Hne]; simpl.
  - destruct (String.eqb k' k0); reflexivity.
  - rewrite IH; destruct (String.eqb_spec k' k0) as [->|]; [|reflexivity].
    destruct (String.eqb_spec k0 k); congruence.
Qed.

Lemma keys_dict_set {A} (k : string) (v v' : A) (d d' : list (string * A)) :
  map fst d = map fst d' -> map fst (dict_set k v d) = map fst (dict_set k v' d').
Proof.
  revert d'; induction d as [|[k0 w] d IH]; intros [|[k1 w'] d'] H; simpl in *;
    try discriminate; [reflexivity|].
  injection H as <- H; destruct (String.eqb k k0); simpl; f_equal; auto.
Qed.

Lemma assoc_In_keys {A} (k : string) (d : list (string * A)) (a : A) :
  assoc k d = Some a -> In k (map fst d).
Proof.
  induction d as [|[k0 w] d IH]; simpl; [discriminate|].
  destruct (String.eqb_spec k k0) as [->|_]; auto.
Qed.

Lemma In_keys_assoc {A} (k : string) (d : list (string * A)) :
  In k (map fst d) -> exists a, assoc k d = Some a.
Proof.
  induction d as [|[k0 w] d IH]; simpl; [tauto|].
  destruct (String.eqb_spec k k0) as [->|Hne]; [eauto|].
  intros [->|Hin]; [congruence|auto].
Qed.

Lemma fold_dict_set_rel (evaluate evaluate' : string -> CandidateResult)
    (names : list string) (d d' : list (string * CandidateResult)) :
  (forall name, cv_mae_mean (evaluate' name) = cv_mae_mean (evaluate name)) ->
  map fst d' = map fst d -> (forall k, results_cv d' k = results_cv d k) ->
  let D := fold_left (fun d name => dict_set name (evaluate name) d) names d in
  let D' := fold_left (fun d name => dict_set name (evaluate' name) d) names d' in
  map fst D' = map fst D /\ (forall k, results_cv D' k = results_cv D k).
Proof.
  intros Hcv; revert d d'; induction names as [|n names IH]; intros d d' Hk Hr;
    simpl; [auto|].
  apply IH; [apply keys_dict_set; exact Hk|].
  intros k; unfold results_cv; rewrite !assoc_dict_set.
  destruct (String.eqb k n); [apply Hcv|apply Hr].
Qed.

Lemma dict_set_nonempty {A} (k : string) (v : A) (d : list (string * A)) :
  dict_set k v d <> [].
Proof.
  destruct d as [|[k0 w] d]; simpl; [discriminate|].
  destruct (String.eqb k k0); discriminate.
Qed.

Lemma fold_dict_set_nonempty (evaluate : string -> CandidateResult)
    (names : list string) (d : list (string * CandidateResult)) :
  d <> [] -> fold_left (fun d name => dict_set name (evaluate name) d) names d <> [].
Proof.
  revert d; induction names as [|n names IH]; intros d Hd; simpl; [exact Hd|].
  apply IH, dict_set_nonempty.
Qed.

(** C5: [train_and_evaluate_models] selects the entry of [self.results]
    with the least [cv_mae_mean] (ties go to the first in insertion order),
    and its [best_model] is that entry's model; which name is selected
    depends on the cross-validated errors only, so evaluations that differ
    in their test-set metrics select the same candidate. *)
Theorem select_min_cv_mae (results0 : list (string * CandidateResult))
    (evaluate evaluate' : string -> CandidateResult) :
  (forall name, cv_mae_mean (evaluate' name) = cv_mae_mean (evaluate name)) ->
  (exists name r,
     fst (train_and_evaluate_models results0 evaluate) = Some (name, cr_model r) /\
     assoc name (snd (train_and_evaluate_models results0 evaluate)) = Some r /\
     (forall k r', assoc k (snd (train_and_evaluate_models results0 evaluate)) = Some r' ->
        cv_mae_mean r <= cv_mae_mean r')) /\
  option_map fst (fst (train_and_evaluate_models results0 evaluate')) =
  option_map fst (fst (train_and_evaluate_models results0 evaluate)).
Proof.
  intros Hcv; unfold train_and_evaluate_models.
  set (D := fold_left (fun d name => dict_set name (evaluate name) d) model_names results0).
  set (D' := fold_left (fun d name => dict_set name (evaluate' name) d) model_names results0).
  assert (HD : D <> []).
  { unfold D, model_names.
    change (fold_left (fun d name => dict_set name (evaluate name) d)
              ["Gradient Boosting"; "Decision Tree"]
              (dict_set "Random Forest" (evaluate "Random Forest") results0) <> []).
    apply fold_dict_set_nonempty, dict_set_nonempty. }
  destruct (fold_dict_set_rel evaluate evaluate' model_names results0 results0 Hcv
              eq_refl (fun _ => eq_refl)) as [Hk Hr].
  fold D D' in Hk, Hr.
  destruct D as [|[k0 r0] D0] eqn:ED; [congruence|].
  rewrite <- ED in *.
  assert (Hmin : py_min_key (results_cv D) (map fst D) =
                 Some (min_key_aux (results_cv D) k0 (map fst D0)))
    by (rewrite ED; reflexivity).
  destruct (min_key_aux_spec (results_cv D) (map fst D0) k0) as (Hin & Hle & Hall).
  set (b := min_key_aux (results_cv D) k0 (map fst D0)) in *.
  assert (HinD : In b (map fst D)) by (rewrite ED; exact Hin).
  destruct (In_keys_assoc b D HinD) as [r Hr_b].
  split.
  - exists b, r; rewrite Hmin, Hr_b; split; [reflexivity|split; [exact Hr_b|]].
    intros k r' Hk'; change (assoc k D = Some r') in Hk'.
    assert (HinK : In k (map fst D)) by (eapply assoc_In_keys; eauto).
    assert (Hb : results_cv D b <= results_cv D k).
    { rewrite ED in HinK; simpl in HinK.
      destruct HinK as [<-|HinK]; [exact Hle|apply Hall; exact HinK]. }
    unfold results_cv in Hb; rewrite Hr_b, Hk' in Hb; exact Hb.
  - rewrite Hk, Hmin.
    assert (Hmin' : py_min_key (results_cv D') (map fst D) = Some b).
    { rewrite ED; simpl; f_equal; unfold b; apply min_key_aux_ext; exact Hr. }
    rewrite Hmin', Hr_b.
    assert (HinD' : In b (map fst D')) by (rewrite Hk; exact HinD).
    destruct (In_keys_assoc b D' HinD') as [r' Hr'_b]; rewrite Hr'_b; reflexivity.
Qed.

(* ------------------------------------------------------------------ *)
(** ** Clipping *)

Lemma np_clip_spec (raw l h : Q) :
  (l <= h ->
     (raw < l -> np_clip raw (Some l) (Some h) = Some l) /\
     (h < raw -> np_clip raw (Some l) (Some h) = Some h) /\
     (l <= raw <= h -> np_clip raw (Some l) (Some h) = Some raw)) /\
  (h < l -> np_clip raw (Some l) (Some h) = Some h).
Proof.
  unfold np_clip.
  destruct (Qlt_bool raw l) eqn:E1;
    [apply Qlt_bool_true in E1|apply Qlt_bool_false in E1].
  - destruct (Qlt_bool h l) eqn:E2;
      [apply Qlt_bool_true in E2|apply Qlt_bool_false in E2].
    + split; [intros Hlh; exfalso; apply (Qlt_not_le _ _ E2 Hlh)|reflexivity].
    + split; [|intros Hlt; exfalso; apply (Qlt_not_le _ _ Hlt E2)].
      intros Hlh; split; [reflexivity|split].
      * intros Hlt; exfalso; apply (Qlt_not_le _ _ (Qlt_trans _ _ _ E1 (Qle_lt_trans _ _ _ Hlh Hlt))).
        apply Qle_refl.
      * intros [Hle _]; exfalso; apply (Qlt_not_le _ _ E1 Hle).
  - destruct (Qlt_bool h raw) eqn:E2;
      [apply Qlt_bool_true in E2|apply Qlt_bool_false in E2].
    + split; [|reflexivity].
      intros Hlh; split; [intros Hlt; exfalso; apply (Qlt_not_le _ _ Hlt E1)|split];
        [reflexivity|intros [_ Hle]; exfalso; apply (Qlt_not_le _ _ E2 Hle)].
    + split; [|intros Hlt; exfalso; apply (Qlt_not_le _ _ Hlt (Qle_trans _ _ _ E1 E2))].
      intros Hlh; split; [intros Hlt; exfalso; apply (Qlt_not_le _ _ Hlt E1)|split];
        [intros Hlt; exfalso; apply (Qlt_not_le _ _ Hlt E2)|reflexivity].
Qed.

(** C2 (amended): for a predictor holding price statistics with numeric
    [min] and [max], let [floor = max(min, 100000)] and
    [ceiling = min(max, 50000000)]; every successful prediction comes from
    a built feature vector [X_input] and, writing [raw = model(X_input)]:
    when [floor <= ceiling], a raw output below the floor returns the
    floor, one above the ceiling returns the ceiling, one inside is
    returned unchanged; when [ceiling < floor], every raw output returns
    the ceiling. *)
Theorem predict_clipping (self : Predictor) (model : Regressor) (ps : PriceStats)
    (mn mx : Q) :
  best_model self = Some model ->
  price_stats self = Some ps -> ps_min ps = Some mn -> ps_max ps = Some mx ->
  forall flight_data log r log',
    predict self flight_data log = (Ok r, log') ->
    exists X_input,
      build self flight_data log = (Ok X_input, log') /\
      let raw := model X_input in
      let floor := if Qlt_bool mn 100000 then 100000 else mn in
      let ceiling := if Qlt_bool 50000000 mx then 50000000 else mx in
      (floor <= ceiling ->
         (raw < floor -> r = Some floor) /\
         (ceiling < raw -> r = Some ceiling) /\
         (floor <= raw <= ceiling -> r = Some raw)) /\
      (ceiling < floor -> r = Some ceiling).
Proof.
  intros Hm Hps Hmn Hmx flight_data log r log' Hpred.
  unfold predict_single_flight in Hpred; rewrite Hm in Hpred.
  unfold bind, ret in Hpred.
  destruct (build self flight_data log) as [[X|e] log''] eqn:Hb;
    [|discriminate].
  injection Hpred as <- <-; exists X; split; [reflexivity|].
  rewrite Hps; unfold clip_prediction; rewrite Hmn, Hmx; unfold py_max, py_min.
  destruct (Qlt_bool mn 100000), (Qlt_bool 50000000 mx); apply np_clip_spec.
Qed.

(* ------------------------------------------------------------------ *)
(** ** The cleaning pipeline *)

Lemma In_filter_map {A B} (f : A -> option B) (l : list A) (y : B) :
  In y (filter_map f l) -> exists x, In x l /\ f x = Some y.
Proof.
  unfold filter_map; rewrite in_flat_map; intros [x [Hx Hy]].
  destruct (f x) eqn:E; simpl in Hy; [|tauto].
  destruct Hy as [<-|[]]; eauto.
Qed.

Lemma fold_min_le (l : list Z) (x : Z) :
  (fold_left Z.min l x <= x)%Z /\ (forall y, In y l -> fold_left Z.min l x <= y)%Z.
Proof.
  revert x; induction l as [|a l IH]; intros x; simpl; [split; [lia|tauto]|].
  destruct (IH (Z.min x a)) as [H1 H2]; split; [lia|].
  intros y [<-|Hy]; [lia|auto].
Qed.

Lemma fold_max_ge (l : list Z) (x : Z) :
  (x <= fold_left Z.max l x)%Z /\ (forall y, In y l -> y <= fold_left Z.max l x)%Z.
Proof.
  revert x; induction l as [|a l IH]; intros x; simpl; [split; [lia|tauto]|].
  destruct (IH (Z.max x a)) as [H1 H2]; split; [lia|].
  intros y [<-|Hy]; [lia|auto].
Qed.

Lemma series_min_le (xs : list Z) (mn : Q) (p : Z) :
  series_min xs = Some mn -> In p xs -> mn <= inject_Z p.
Proof.
  destruct xs as [|x l]; simpl; [discriminate|]; intros H Hp; injection H as <-.
  rewrite <- Zle_Qle; destruct (fold_min_le l x) as [H1 H2].
  destruct Hp as [<-|Hp]; auto.
Qed.

Lemma series_max_ge (xs : list Z) (mx : Q) (p : Z) :
  series_max xs = Some mx -> In p xs -> inject_Z p <= mx.
Proof.
  destruct xs as [|x l]; simpl; [discriminate|]; intros H Hp; injection H as <-.
  rewrite <- Zle_Qle; destruct (fold_max_ge l x) as [H1 H2].
  destruct Hp as [<-|Hp]; auto.
Qed.

Lemma In_prices {C F} (rows : list (Row C F)) (r : Row C F) (p : Z) :
  In r rows -> price r = Some p -> In p (prices rows).
Proof.
  intros Hr Hp; unfold prices; apply in_flat_map; exists r; rewrite Hp; simpl; auto.
Qed.

(** C1 (amended): [load_and_preprocess_data] drops duplicate rows, takes
    Q1 and Q3 of the deduplicated prices, drops the rows whose price lies
    outside [[Q1 - 1.5 IQR, Q3 + 1.5 IQR]], records min, max, mean and std
    of the rows kept by that filter, and only then drops the rows with an
    unparsable creation timestamp, a failing flight-date parse and an empty
    or missing aircraft type.  Every surviving row has a price within the
    bounds and within the recorded [[min, max]], and a non-empty stripped
    aircraft type. *)
Theorem cleaner_statistics_before_row_filters (table : list RawRow) :
  let deduped := drop_duplicates table in
  let Q1 := quantile (1 # 4) (prices deduped) in
  let Q3 := quantile (3 # 4) (prices deduped) in
  let lower_bound := fst (outlier_bounds Q1 Q3) in
  let upper_bound := snd (outlier_bounds Q1 Q3) in
  let kept := filter (fun r => in_bounds lower_bound upper_bound (price r)) deduped in
  let out := load_and_preprocess_data DT to_datetime qsqrt table in
  snd out = stats_of qsqrt kept Q1 Q3 /\
  fst out = filter_map clean_type_of_plane
              (filter_map (parse_flight_date_row DT to_datetime)
                 (filter_map (parse_create_at DT to_datetime) kept)) /\
  (forall r, In r (fst out) ->
     exists p s, price r = Some p /\
       in_bounds lower_bound upper_bound (Some p) = true /\
       (forall mn, ps_min (snd out) = Some mn -> mn <= inject_Z p) /\
       (forall mx, ps_max (snd out) = Some mx -> inject_Z p <= mx) /\
       type_of_plane r = Some s /\ s <> "").
Proof.
  intros deduped Q1 Q3 lower_bound upper_bound kept out.
  assert (Hout : out = (filter_map clean_type_of_plane
              (filter_map (parse_flight_date_row DT to_datetime)
                 (filter_map (parse_create_at DT to_datetime) kept)),
                        stats_of qsqrt kept Q1 Q3)).
  { unfold out, load_and_preprocess_data, kept, lower_bound, upper_bound.
    fold deduped Q1 Q3.
    destruct (outlier_bounds Q1 Q3); reflexivity. }
  rewrite Hout; simpl; split; [reflexivity|split; [reflexivity|]].
  intros r Hr.
  apply In_filter_map in Hr as [r2 [Hr2 Hc]].
  apply In_filter_map in Hr2 as [r1 [Hr1 Hf]].
  apply In_filter_map in Hr1 as [r0 [Hr0 Hp]].
  assert (Hprice : price r = price r0).
  { unfold clean_type_of_plane in Hc; unfold parse_flight_date_row in Hf;
    unfold parse_create_at in Hp.
    destruct (type_of_plane r2); [|discriminate].
    destruct (String.eqb (strip s) ""); [discriminate|]; injection Hc as <-.
    destruct (parse_flight_date DT to_datetime (flight_date r1)); [|discriminate].
    injection Hf as <-.
    destruct (create_at r0); [|discriminate].
    destruct (to_datetime s0); [|discriminate]; injection Hp as <-; reflexivity. }
  assert (Htype : exists s, type_of_plane r = Some s /\ s <> "").
  { unfold clean_type_of_plane in Hc.
    destruct (type_of_plane r2); [|discriminate].
    destruct (String.eqb_spec (strip s) ""); [discriminate|]; injection Hc as <-.
    exists (strip s); split; [reflexivity|assumption]. }
  unfold kept in Hr0; apply filter_In in Hr0 as [Hd Hb].
  destruct (price r0) as [p|] eqn:Ep; [|unfold in_bounds in Hb;
    destruct lower_bound, upper_bound; discriminate].
  destruct Htype as [s [Hs Hne]].
  exists p, s; split; [congruence|split; [exact Hb|split; [|split; [|auto]]]].
  - intros mn Hmn; eapply series_min_le; [exact Hmn|].
    eapply In_prices; [|exact Ep]; apply filter_In; split; [exact Hd|rewrite Ep; exact Hb].
  - intros mx Hmx; eapply series_max_ge; [exact Hmx|].
    eapply In_prices; [|exact Ep]; apply filter_In; split; [exact Hd|rewrite Ep; exact Hb].
Qed.

(* ------------------------------------------------------------------ *)
(** ** Flight duration *)

Lemma complete_fold (fr : list (string * option Z)) (p p' : Z) (row : list (string * Z)) :
  fold_right (fun '(c, v) acc =>
    match v, acc with
    | Some x, Some (row, p') => Some ((c, x) :: row, p')
    | _, _ => None
    end) (Some ([], p)) fr = Some (row, p') ->
  fr = map (fun cx => (fst cx, Some (snd cx))) row.
Proof.
  revert row p'; induction fr as [|[c v] fr IH]; intros row p' H; simpl in H.
  - injection H as <- _; reflexivity.
  - destruct v as [x|]; [|discriminate].
    destruct (fold_right _ _ fr) as [[row0 p0]|] eqn:E; [|discriminate].
    injection H as <- _; simpl; f_equal; apply (IH row0 p0); reflexivity.
Qed.

Lemma assoc_some_map (k : string) (row : list (string * Z)) :
  assoc k (map (fun cx => (fst cx, Some (snd cx))) row) = option_map Some (assoc k row).
Proof.
  induction row as [|[c x] row IH]; simpl; [reflexivity|].
  destruct (String.eqb k c); [reflexivity|exact IH].
Qed.

Lemma feature_row_flight_duration (df : list (CleanRow DT))
    (encoders : list (string * LabelEncoder)) (r : CleanRow DT) :
  assoc "flight_duration" (feature_row DT dt_hour dt_dayofweek dt_month dt_days_between df encoders r) =
  Some (FeatureEngineering.flight_duration
          (FeatureEngineering.time_to_minutes (departure_time r))
          (FeatureEngineering.time_to_minutes (arrival_time r))).
Proof. reflexivity. Qed.

(** C6 (amended): every row of the training feature matrix comes from a
    cleaned row whose two clock times parse to minute counts [d] and [a];
    its [flight_duration] is [a - d], plus 1440 when that is negative; it
    lies in [[0, 1440)] whenever [d] and [a] do (which the code does not
    check: an ["HH:MM"] string with [HH >= 24] or [MM >= 60] parses). *)
Theorem flight_duration_range (df : list (CleanRow DT)) (row : list (string * Z)) :
  In row (fo_X (feature_eng df)) ->
  exists r d a fd,
    In r df /\
    FeatureEngineering.time_to_minutes (departure_time r) = Some d /\
    FeatureEngineering.time_to_minutes (arrival_time r) = Some a /\
    assoc "flight_duration" row = Some fd /\
    fd = (if a - d <? 0 then a - d + 1440 else a - d)%Z /\
    (0 <= d < 1440 -> 0 <= a < 1440 -> 0 <= fd < 1440)%Z.
Proof.
  unfold feature_engineering, fo_X; intros Hin.
  apply in_map_iff in Hin as [[row' y] [Heq Hin]]; simpl in Heq; subst row'.
  apply In_filter_map in Hin as [r [Hr Hc]].
  unfold complete_row in Hc; destruct (price r) as [p|]; [|discriminate].
  apply complete_fold in Hc.
  pose proof (feature_row_flight_duration df
    (map (fun col => (col, le_fit (map (fun r => astype_str (categorical_value DT col r)) df)))
       categorical_cols) r) as Hfd.
  rewrite Hc, assoc_some_map in Hfd.
  destruct (assoc "flight_duration" row) as [fd|]; [|discriminate]; simpl in Hfd.
  unfold FeatureEngineering.flight_duration in Hfd.
  destruct (FeatureEngineering.time_to_minutes (departure_time r)) as [d|] eqn:Ed; [|discriminate].
  destruct (FeatureEngineering.time_to_minutes (arrival_time r)) as [a|] eqn:Ea; [|discriminate].
  exists r, d, a, fd; do 4 (split; [auto|]).
  destruct (Z.ltb_spec (a - d) 0) as [Hlt|Hge].
  - injection Hfd as Hfd; subst fd; split; [reflexivity|lia].
  - injection Hfd as Hfd; subst fd; split; [reflexivity|lia].
Qed.

(* ------------------------------------------------------------------ *)
(** ** Deriving the features of one record *)

Lemma assoc_set_col (k c : string) (v : Cell DT) (df : Frame DT) :
  assoc k (set_col DT c v df) = if String.eqb k c then Some v else assoc k df.
Proof.
  induction df as [|[c0 w] df IH]; simpl; [reflexivity|].
  destruct (String.eqb_spec c c0) as [->|Hne]; simpl.
  - destruct (String.eqb k c0); reflexivity.
  - rewrite IH; destruct (String.eqb_spec k c0) as [->|]; [|reflexivity].
    destruct (String.eqb_spec c0 c); congruence.
Qed.

Lemma assoc_request (k : string) (req : Request) :
  assoc k (map (fun '(k, v) => (k, CStr DT v)) req) = option_map (CStr DT) (assoc k req).
Proof.
  induction req as [|[k0 v] req IH]; simpl; [reflexivity|].
  destruct (String.eqb k k0); [reflexivity|exact IH].
Qed.

Lemma sub_dates_ok (later earlier : DT) (log : list message) :
  dt_tz_aware later = dt_tz_aware earlier ->
  sub_dates DT dt_days_between dt_tz_aware later earlier log =
    (Ok (dt_days_between later earlier), log).
Proof. intros H; unfold sub_dates; rewrite H, Bool.eqb_reflx; reflexivity. Qed.

Lemma sub_dates_err (later earlier : DT) (log : list message) :
  dt_tz_aware later <> dt_tz_aware earlier ->
  sub_dates DT dt_days_between dt_tz_aware later earlier log =
    (Err (TypeError "Cannot subtract tz-naive and tz-aware datetime-like objects"), log).
Proof.
  intros H; unfold sub_dates.
  destruct (Bool.eqb _ _) eqn:E; [apply Bool.eqb_prop in E; contradiction|reflexivity].
Qed.

Lemma derive_features_ok (self : Predictor) (req : Request) (log : list message)
    (sca sfd sfn sdep sarr : string) (ca fd : DT) (rs aps : PopStats) :
  assoc "create_at" req = Some sca -> to_datetime sca = Some ca ->
  assoc "flight_date" req = Some sfd -> to_datetime sfd = Some fd ->
  dt_tz_aware fd = dt_tz_aware ca ->
  assoc "departure_time" req = Some sdep -> assoc "arrival_time" req = Some sarr ->
  assoc "flight_number" req = Some sfn ->
  route_popularity_stats self = Some rs -> airline_popularity_stats self = Some aps ->
  exists df,
    derive_features DT to_datetime dt_hour dt_dayofweek dt_month dt_days_between
      dt_tz_aware self req log = (Ok df, log) /\
    (forall c, In c ["create_hour"; "create_day_of_week"; "create_month";
                     "flight_month"; "flight_day_of_week"; "days_in_advance";
                     "departure_minutes"; "flight_duration"; "is_weekend_booking";
                     "is_weekend_flight"; "booking_category";
                     "departure_time_category"; "route_popularity";
                     "airline_popularity"] ->
       exists x, assoc c df = Some (CNum DT x)) /\
    (forall c, In c ["flight_number"; "departure_airport"; "arrival_airport";
                     "classes"; "type_of_plane"] ->
       assoc c df = option_map (CStr DT) (assoc c req)) /\
    assoc "airline" df = Some (CStr DT (prefix2 sfn)).
Proof.
  intros Hca Hcad Hfd Hfdd Htz Hdep Harr Hfn Hrs Has.
  eexists; split.
  { unfold derive_features, to_datetime_col, get_date, get_col, get_mean, bind, ret.
    reduce_frame.
    repeat (first [ rewrite assoc_set_col | rewrite assoc_request | rewrite Hca
                  | rewrite (sub_dates_ok fd ca _ Htz)
                  | rewrite Hcad | rewrite Hfd | rewrite Hfdd | rewrite Hdep
                  | rewrite Harr | rewrite Hfn | rewrite Hrs | rewrite Has ];
            reduce_frame).
    reflexivity. }
  split; [|split].
  - intros c Hc; simpl in Hc.
    repeat (destruct Hc as [<-|Hc];
      [repeat (rewrite assoc_set_col; reduce_frame); eexists; reflexivity|]).
    destruct Hc.
  - intros c Hc; simpl in Hc.
    repeat (destruct Hc as [<-|Hc];
      [repeat (first [rewrite assoc_set_col | rewrite assoc_request]; reduce_frame);
       reflexivity|]).
    destruct Hc.
  - repeat (rewrite assoc_set_col; reduce_frame); reflexivity.
Qed.

(* ------------------------------------------------------------------ *)
(** ** Encoding and assembling the feature vector *)

Lemma encode_col_step (self : Predictor) (df : Frame DT) (col s : string)
    (le : LabelEncoder) (log : list message) :
  assoc col df = Some (CStr DT s) -> assoc col (label_encoders self) = Some le ->
  encode_col DT self df col log =
  (Ok (set_col DT (col ++ "_encoded")
         (num DT (match le_transform le s with Some c => c | None => 0%Z end)) df),
   app log (match le_transform le s with
            | Some _ => []
            | None => if negb (Nat.eqb (List.length (classes_ le)) 0)
                      then [WarnUnseen col s] else []
            end)).
Proof.
  intros Hdf Hle; unfold encode_col; rewrite Hdf, Hle; cbn [cell_str].
  destruct (le_transform le s); [unfold ret; rewrite app_nil_r; reflexivity|].
  destruct (negb _); unfold tell, bind, ret; [reflexivity|rewrite app_nil_r; reflexivity].
Qed.

Lemma encode_fold (self : Predictor) (cols : list string) (df : Frame DT)
    (log : list message) :
  (forall c, In c cols -> exists s, assoc c df = Some (CStr DT s)) ->
  (forall c, In c cols -> exists le, assoc c (label_encoders self) = Some le) ->
  (forall c c', In c cols -> In c' cols -> String.eqb c (c' ++ "_encoded") = false) ->
  NoDup (map (fun c => c ++ "_encoded") cols) ->
  exists df' w,
    foldM (encode_col DT self) df cols log = (Ok df', app log w) /\
    (forall k, (forall c, In c cols -> String.eqb k (c ++ "_encoded") = false) ->
       assoc k df' = assoc k df) /\
    (forall c, In c cols -> exists x, assoc (c ++ "_encoded") df' = Some (CNum DT x)) /\
    (forall c s le, In c cols -> assoc c df = Some (CStr DT s) ->
       assoc c (label_encoders self) = Some le ->
       le_transform le s = None -> classes_ le <> [] ->
       In (WarnUnseen c s) w /\ assoc (c ++ "_encoded") df' = Some (num DT 0)).
Proof.
  revert df log; induction cols as [|col cols IH]; intros df log Hs Hl Hclash Hnd.
  - exists df, []; rewrite app_nil_r; split; [reflexivity|].
    split; [reflexivity|split; intros c; simpl; tauto].
  - destruct (Hs col (or_introl eq_refl)) as [s Hcol].
    destruct (Hl col (or_introl eq_refl)) as [le Hle].
    inversion Hnd as [|? ? Hnotin Hnd']; subst.
    set (code := match le_transform le s with Some c => c | None => 0%Z end).
    set (w1 := match le_transform le s with
               | Some _ => []
               | None => if negb (Nat.eqb (List.length (classes_ le)) 0)
                         then [WarnUnseen col s] else []
               end).
    set (df1 := set_col DT (col ++ "_encoded") (num DT code) df).
    assert (Hdf1 : forall c, In c cols -> assoc c df1 = assoc c df).
    { intros c Hc; unfold df1; rewrite assoc_set_col.
      rewrite (Hclash c col (or_intror Hc) (or_introl eq_refl)); reflexivity. }
    destruct (IH df1 (app log w1)) as (df' & w2 & Hfold & Hunch & Henc & Hwarn).
    + intros c Hc; rewrite Hdf1 by exact Hc; apply Hs; right; exact Hc.
    + intros c Hc; apply Hl; right; exact Hc.
    + intros c c' Hc Hc'; apply Hclash; right; assumption.
    + exact Hnd'.
    + assert (Hcol' : assoc (col ++ "_encoded") df' = Some (num DT code)).
      { rewrite Hunch.
        - unfold df1; rewrite assoc_set_col, String.eqb_refl; reflexivity.
        - intros c Hc; destruct (String.eqb_spec (col ++ "_encoded") (c ++ "_encoded"))
            as [Heq|]; [|reflexivity].
          exfalso; apply Hnotin; rewrite Heq.
          exact (in_map (fun c0 => c0 ++ "_encoded") cols c Hc). }
      exists df', (app w1 w2); split.
      { change (foldM (encode_col DT self) df (col :: cols) log)
          with (bind (encode_col DT self df col)
                  (fun a => foldM (encode_col DT self) a cols) log).
        unfold bind; rewrite (encode_col_step self df col s le log Hcol Hle).
        fold code w1 df1; rewrite Hfold, app_assoc; reflexivity. }
      split; [|split].
      * intros k Hk; rewrite Hunch by (intros c Hc; apply Hk; right; exact Hc).
        unfold df1; rewrite assoc_set_col, (Hk col (or_introl eq_refl)); reflexivity.
      * intros c [<-|Hc]; [eexists; exact Hcol'|apply Henc; exact Hc].
      * intros c s' le' [<-|Hc] Hs' Hle' Hnone Hne.
        -- rewrite Hcol in Hs'; injection Hs' as <-.
           rewrite Hle in Hle'; injection Hle' as <-.
           split.
           ++ apply in_or_app; left; unfold w1; rewrite Hnone.
              destruct (classes_ le); [congruence|simpl; left; reflexivity].
           ++ rewrite Hcol'; unfold code; rewrite Hnone; reflexivity.
        -- rewrite <- (Hdf1 c Hc) in Hs'.
           destruct (Hwarn c s' le' Hc Hs' Hle' Hnone Hne) as [Hin Hv].
           split; [apply in_or_app; right; exact Hin|exact Hv].
Qed.

Lemma iterM_log {B} (f : B -> M unit) (l : list B) (log : list message) :
  (forall b log, exists w, f b log = (Ok tt, app log w)) ->
  exists w, iterM f l log = (Ok tt, app log w).
Proof.
  intros Hf; revert log; induction l as [|b l IH]; intros log; simpl.
  - exists []; rewrite app_nil_r; reflexivity.
  - unfold bind; destruct (Hf b log) as [w1 H1]; rewrite H1.
    destruct (IH (app log w1)) as [w2 H2]; rewrite H2.
    exists (app w1 w2); rewrite app_assoc; reflexivity.
Qed.


Lemma mapM_pure {A B} (f : A -> M B) (g : A -> B) (l : list A) (log : list message) :
  (forall a, In a l -> forall log, f a log = (Ok (g a), log)) ->
  mapM f l log = (Ok (map g l), log).
Proof.
  revert log; induction l as [|a l IH]; intros log Hf; [reflexivity|].
  cbn [mapM]; unfold bind; rewrite (Hf a (or_introl eq_refl)).
  rewrite IH by (intros b Hb; apply Hf; right; exact Hb); reflexivity.
Qed.

Lemma filter_absent_nil (df : Frame DT) (cols : list string) :
  (forall c, In c cols -> exists x, assoc c df = Some x) ->
  filter (fun col => match assoc col df with Some _ => false | None => true end) cols = [].
Proof.
  induction cols as [|c cols IH]; intros Hall; [reflexivity|].
  destruct (Hall c (or_introl eq_refl)) as [x Hx]; simpl; rewrite Hx.
  apply IH; intros c' Hc'; apply Hall; right; exact Hc'.
Qed.

Lemma assemble_ok (self : Predictor) (df : Frame DT) (cols : list string)
    (log : list message) :
  feature_columns self = Some cols ->
  (forall c, In c cols -> exists x, assoc c df = Some (CNum DT x)) ->
  exists w, assemble DT self df log =
    (Ok (map (fun c => match assoc c df with Some (CNum _ (Some x)) => x | _ => 0 end) cols),
     app log w).
Proof.
  intros Hfc Hall; unfold assemble; rewrite Hfc.
  destruct (iterM_log (fun col => match assoc col df with
                                  | Some _ => ret tt
                                  | None => tell (FeatureMissing col)
                                  end) cols log) as [w Hw].
  { intros b l; destruct (assoc b df);
      [exists []; rewrite app_nil_r; reflexivity|exists [FeatureMissing b]; reflexivity]. }
  exists w; unfold bind at 1; rewrite Hw.
  rewrite filter_absent_nil
    by (intros c Hc; destruct (Hall c Hc) as [x Hx]; eexists; exact Hx).
  apply mapM_pure; intros c Hc l.
  destruct (Hall c Hc) as [x Hx].
  unfold bind, get_col, cell_value; rewrite Hx; destruct x; reflexivity.
Qed.

(** C3: for a fitted encoder of a categorical column that does not know the
    value the request carries in that column, the prediction still
    succeeds: a warning about the unseen value is logged, every position of
    the feature vector that holds the column's encoded feature is 0, and the
    prediction is the model applied to that vector (then clipped as usual).
    The request must get through the steps before encoding: its timestamps
    parse, both or neither carry a UTC offset (otherwise [days_in_advance]
    raises), and it has the fields the inference path reads. *)
Theorem unseen_category_fallback (self : Predictor) (model : Regressor)
    (cols : list string) (req : Request) (sca sfd sfn sdep sarr : string)
    (ca fd : DT) (rs aps : PopStats) (col v : string) (le : LabelEncoder)
    (log : list message) :
  best_model self = Some model ->
  feature_columns self = Some cols ->
  (forall c, In c cols -> In c all_feature_columns) ->
  (forall c, In c categorical_cols -> exists le', assoc c (label_encoders self) = Some le') ->
  route_popularity_stats self = Some rs -> airline_popularity_stats self = Some aps ->
  assoc "create_at" req = Some sca -> to_datetime sca = Some ca ->
  assoc "flight_date" req = Some sfd -> to_datetime sfd = Some fd ->
  dt_tz_aware fd = dt_tz_aware ca ->
  assoc "departure_time" req = Some sdep -> assoc "arrival_time" req = Some sarr ->
  assoc "flight_number" req = Some sfn ->
  (forall c, In c ["departure_airport"; "arrival_airport"; "classes"; "type_of_plane"] ->
     exists s, assoc c req = Some s) ->
  In col categorical_cols ->
  (if String.eqb col "airline" then Some (prefix2 sfn) else assoc col req) = Some v ->
  assoc col (label_encoders self) = Some le ->
  classes_ le <> [] ->
  le_transform le v = None ->
  exists X_input log',
    build self req log = (Ok X_input, log') /\
    In (WarnUnseen col v) log' /\
    (forall i, nth_error cols i = Some (col ++ "_encoded") -> nth_error X_input i = Some 0) /\
    predict self req log = (Ok (clip_prediction (price_stats self) (model X_input)), log').
Proof.
  intros Hm Hfc Hsub Hles Hrs Has Hca Hcad Hfd Hfdd Htz Hdep Harr Hfn Hreq Hcol Hv Hle Hne
    Hnone.
  destruct (derive_features_ok self req log sca sfd sfn sdep sarr ca fd rs aps
              Hca Hcad Hfd Hfdd Htz Hdep Harr Hfn Hrs Has) as (df & Hdf & Hnum & Hstr & Hair).
  assert (Hcs : forall c, In c categorical_cols ->
            exists s, assoc c df = Some (CStr DT s) /\
              (if String.eqb c "airline" then Some (prefix2 sfn) else assoc c req) = Some s).
  { intros c Hc; simpl in Hc.
    destruct Hc as [<-|Hc].
    { rewrite (Hstr "flight_number") by (simpl; tauto); rewrite Hfn; eexists; split; reflexivity. }
    repeat (destruct Hc as [<-|Hc];
      [match goal with
       | |- exists s, assoc ?c df = _ /\ _ =>
           destruct (Hreq c ltac:(simpl; tauto)) as [s Hs];
           rewrite (Hstr c ltac:(simpl; tauto)), Hs; exists s; split; reflexivity
       end|]).
    destruct Hc as [<-|[]]; exists (prefix2 sfn); split; [exact Hair|reflexivity]. }
  destruct (encode_fold self categorical_cols df log) as (df' & w & Henc & Hunch & Hplace & Hwarn).
  - intros c Hc; destruct (Hcs c Hc) as (s & Hs & _); exists s; exact Hs.
  - exact Hles.
  - intros c c' Hc Hc'; simpl in Hc, Hc';
      repeat (destruct Hc as [<-|Hc]; [repeat (destruct Hc' as [<-|Hc']; [reflexivity|]); destruct Hc'|]);
      destruct Hc.
  - vm_compute; repeat constructor; simpl; intuition discriminate.
  - assert (Hall : forall c, In c all_feature_columns -> exists x, assoc c df' = Some (CNum DT x)).
    { intros c Hc.
      destruct (in_app_or (map (fun c => c ++ "_encoded") categorical_cols)
                  (skipn 6 all_feature_columns) c Hc) as [Hc'|Hc'].
      - apply in_map_iff in Hc'; destruct Hc' as (c0 & <- & Hc0); exact (Hplace c0 Hc0).
      - rewrite Hunch.
        + apply Hnum; exact Hc'.
        + intros c0 Hc0; simpl in Hc', Hc0;
            repeat (destruct Hc' as [<-|Hc']; [repeat (destruct Hc0 as [<-|Hc0]; [reflexivity|]); destruct Hc0|]);
            destruct Hc'. }
    destruct (assemble_ok self df' cols (app log w) Hfc
                (fun c Hc => Hall c (Hsub c Hc))) as [w' Hasm].
    set (X := map (fun c => match assoc c df' with Some (CNum _ (Some x)) => x | _ => 0 end) cols) in Hasm.
    assert (Hbuild : build self req log = (Ok X, app (app log w) w')).
    { unfold build_input, encode_categoricals, bind at 1; rewrite Hdf.
      unfold bind at 1; rewrite Henc; exact Hasm. }
    destruct (Hcs col Hcol) as (s & Hs & Hs').
    rewrite Hv in Hs'; injection Hs' as <-.
    destruct (Hwarn col v le Hcol Hs Hle Hnone Hne) as [Hin Hzero].
    exists X, (app (app log w) w'); split; [exact Hbuild|].
    split; [apply in_or_app; left; apply in_or_app; right; exact Hin|].
    split.
    + intros i Hi; unfold X; rewrite nth_error_map, Hi; simpl; rewrite Hzero; reflexivity.
    + unfold predict_single_flight; rewrite Hm; unfold bind at 1; rewrite Hbuild; reflexivity.
Qed.

(* ================================================================== *)
(** * Further properties of the code *)

(* ------------------------------------------------------------------ *)
(** ** Saving and loading *)

(** [load_model] of the dict [save_model] pickles restores every attribute
    that prediction reads: model, model type, feature columns, encoders,
    price statistics and both popularity statistics. *)
Theorem save_load_roundtrip (self : Predictor) : load_model (save_model self) = self.
Proof. destruct self; reflexivity. Qed.

(* ------------------------------------------------------------------ *)
(** ** Deduplication *)

Lemma drop_duplicates_aux_In (seen l : list RawRow) (r : RawRow) :
  In r (drop_duplicates_aux seen l) <-> In r l /\ ~ In r seen.
Proof.
  revert seen; induction l as [|r0 l IH]; intros seen; simpl; [tauto|].
  destruct (in_dec raw_row_eq_dec r0 seen) as [Hin|Hnin].
  - rewrite IH; destruct (raw_row_eq_dec r r0) as [->|Hne]; [tauto|].
    assert (r0 <> r) by congruence; tauto.
  - simpl; rewrite IH; simpl.
    destruct (raw_row_eq_dec r r0) as [->|Hne]; [tauto|].
    assert (r0 <> r) by congruence; tauto.
Qed.

Lemma drop_duplicates_aux_NoDup (seen l : list RawRow) : NoDup (drop_duplicates_aux seen l).
Proof.
  revert seen; induction l as [|r0 l IH]; intros seen; simpl; [constructor|].
  destruct (in_dec raw_row_eq_dec r0 seen); [apply IH|].
  constructor; [|apply IH].
  rewrite drop_duplicates_aux_In; simpl; tauto.
Qed.

Lemma drop_duplicates_aux_id (seen l : list RawRow) :
  NoDup l -> (forall r, In r l -> ~ In r seen) -> drop_duplicates_aux seen l = l.
Proof.
  revert seen; induction l as [|r0 l IH]; intros seen Hnd Hs; simpl; [reflexivity|].
  inversion Hnd as [|? ? Hnotin Hnd']; subst.
  destruct (in_dec raw_row_eq_dec r0 seen) as [Hin|_];
    [exfalso; exact (Hs r0 (or_introl eq_refl) Hin)|].
  f_equal; apply IH; [exact Hnd'|].
  intros r Hr [->|H]; [contradiction|exact (Hs r (or_intror Hr) H)].
Qed.

Lemma drop_duplicates_aux_app (seen l e : list RawRow) :
  (forall x, In x e -> In x seen \/ In x l) ->
  drop_duplicates_aux seen (app l e) = drop_duplicates_aux seen l.
Proof.
  revert seen; induction l as [|r0 l IH]; intros seen He; simpl.
  - induction e as [|x e IHe]; simpl; [reflexivity|].
    destruct (in_dec raw_row_eq_dec x seen) as [_|Hn].
    + apply IHe; intros y Hy; apply He; right; exact Hy.
    + exfalso; destruct (He x (or_introl eq_refl)) as [H|[]]; contradiction.
  - destruct (in_dec raw_row_eq_dec r0 seen) as [Hin|Hnin].
    + apply IH; intros x Hx; destruct (He x Hx) as [H|[<-|H]]; auto.
    + f_equal; apply IH; intros x Hx; destruct (He x Hx) as [H|[<-|H]]; simpl; auto.
Qed.

(** [drop_duplicates] keeps exactly the rows of the table, each once, and
    applying it again changes nothing. *)
Theorem drop_duplicates_spec (table : list RawRow) :
  NoDup (drop_duplicates table) /\
  (forall r, In r (drop_duplicates table) <-> In r table) /\
  drop_duplicates (drop_duplicates table) = drop_duplicates table.
Proof.
  unfold drop_duplicates; split; [apply drop_duplicates_aux_NoDup|split].
  - intros r; rewrite drop_duplicates_aux_In; simpl; tauto.
  - apply drop_duplicates_aux_id; [apply drop_duplicates_aux_NoDup|intros r _ []].
Qed.

(** Appending copies of rows the table already holds changes neither the
    cleaned table nor the price statistics: deduplication runs before the
    quartiles are taken. *)
Theorem cleaner_ignores_repeated_rows (table extra : list RawRow) :
  (forall r, In r extra -> In r table) ->
  load_and_preprocess_data DT to_datetime qsqrt (app table extra) =
  load_and_preprocess_data DT to_datetime qsqrt table.
Proof.
  intros H; unfold load_and_preprocess_data, drop_duplicates.
  rewrite drop_duplicates_aux_app by (intros x Hx; right; auto); reflexivity.
Qed.



(* ------------------------------------------------------------------ *)
(** ** Time of day *)

(** [categorize_time_of_day] puts minute [m] in bucket 0 for [[360, 720)],
    1 for [[720, 1080)], 2 for [[1080, 1320)] and 3 otherwise; a NaN
    (unparsable time at training) is bucket 3; both paths agree on every
    minute count. *)
Theorem time_of_day_buckets (m : Z) :
  (FeatureEngineering.categorize_time_of_day (Some m) = 0 <-> 360 <= m < 720)%Z /\
  (FeatureEngineering.categorize_time_of_day (Some m) = 1 <-> 720 <= m < 1080)%Z /\
  (FeatureEngineering.categorize_time_of_day (Some m) = 2 <-> 1080 <= m < 1320)%Z /\
  (FeatureEngineering.categorize_time_of_day (Some m) = 3 <-> m < 360 \/ 1320 <= m)%Z /\
  FeatureEngineering.categorize_time_of_day None = 3%Z /\
  PredictSingleFlight.categorize_time_of_day m = FeatureEngineering.categorize_time_of_day (Some m).
Proof.
  pose proof (Z.div_mod m 60 ltac:(lia)); pose proof (Z.mod_pos_bound m 60 ltac:(lia)).
  unfold FeatureEngineering.categorize_time_of_day, PredictSingleFlight.categorize_time_of_day.
  destruct (Z.leb_spec 6 (m / 60)), (Z.ltb_spec (m / 60) 12), (Z.leb_spec 12 (m / 60)),
    (Z.ltb_spec (m / 60) 18), (Z.leb_spec 18 (m / 60)), (Z.ltb_spec (m / 60) 22);
    simpl; repeat split; intros; try lia.
Qed.

(* ------------------------------------------------------------------ *)
(** ** The cleaned table and its statistics *)

(** Every row the cleaner returns comes from a row of the raw table that
    has a creation timestamp: its flight date is the parse of the raw
    string, which contains a ['T'], its aircraft type is the stripped raw
    value, which is not empty, and every other field but the creation
    timestamp is the raw one. *)
Theorem cleaned_row_provenance (table : list RawRow) (r : CleanRow DT) :
  In r (fst (load_and_preprocess_data DT to_datetime qsqrt table)) ->
  exists raw sca sfd stp,
    In raw table /\
    create_at raw = Some sca /\
    flight_date raw = Some sfd /\ contains_char "T" sfd = true /\
    to_datetime sfd = Some (flight_date r) /\
    type_of_plane raw = Some stp /\ type_of_plane r = Some (strip stp) /\
    strip stp <> "" /\
    flight_number r = flight_number raw /\
    departure_airport r = departure_airport raw /\
    arrival_airport r = arrival_airport raw /\
    departure_time r = departure_time raw /\ arrival_time r = arrival_time raw /\
    classes r = classes raw /\ price r = price raw.
Proof.
  unfold load_and_preprocess_data; destruct (outlier_bounds _ _) as [lb ub]; simpl.
  intros Hr.
  apply In_filter_map in Hr as [r2 [Hr2 Hc]].
  apply In_filter_map in Hr2 as [r1 [Hr1 Hf]].
  apply In_filter_map in Hr1 as [r0 [Hr0 Hp]].
  apply filter_In in Hr0 as [Hr0 _].
  unfold drop_duplicates in Hr0; apply drop_duplicates_aux_In in Hr0 as [Hr0 _].
  unfold clean_type_of_plane in Hc.
  destruct (type_of_plane r2) as [stp|] eqn:Et; [|discriminate].
  destruct (String.eqb (strip stp) "") eqn:Es; [discriminate|]; injection Hc as <-.
  apply String.eqb_neq in Es.
  unfold parse_flight_date_row, parse_flight_date in Hf.
  destruct (flight_date r1) as [sfd|] eqn:Efd; [|discriminate].
  destruct (contains_char "T" sfd) eqn:ET; [|discriminate].
  destruct (to_datetime sfd) as [fd|] eqn:Efdd; [|discriminate]; injection Hf as <-.
  unfold parse_create_at in Hp.
  destruct (create_at r0) as [sca|] eqn:Eca; [|discriminate].
  destruct (to_datetime sca) as [ca|] eqn:Ecad; [|discriminate]; injection Hp as <-.
  simpl in *; exists r0, sca, sfd, stp; repeat split; auto.
Qed.

Lemma fold_min_In (l : list Z) (x : Z) : In (fold_left Z.min l x) (x :: l).
Proof.
  revert x; induction l as [|a l IH]; intros x; simpl; [auto|].
  destruct (IH (Z.min x a)) as [H|H]; [|auto].
  rewrite <- H; destruct (Z.min_dec x a) as [E|E]; rewrite E; auto.
Qed.

Lemma fold_max_In (l : list Z) (x : Z) : In (fold_left Z.max l x) (x :: l).
Proof.
  revert x; induction l as [|a l IH]; intros x; simpl; [auto|].
  destruct (IH (Z.max x a)) as [H|H]; [|auto].
  rewrite <- H; destruct (Z.max_dec x a) as [E|E]; rewrite E; auto.
Qed.

Lemma series_min_In (xs : list Z) (mn : Q) :
  series_min xs = Some mn -> exists p, In p xs /\ mn = inject_Z p.
Proof.
  destruct xs as [|x l]; simpl; [discriminate|]; intros H; injection H as <-.
  exists (fold_left Z.min l x); split; [apply fold_min_In|reflexivity].
Qed.

Lemma series_max_In (xs : list Z) (mx : Q) :
  series_max xs = Some mx -> exists p, In p xs /\ mx = inject_Z p.
Proof.
  destruct xs as [|x l]; simpl; [discriminate|]; intros H; injection H as <-.
  exists (fold_left Z.max l x); split; [apply fold_max_In|reflexivity].
Qed.

Lemma inject_Z_succ_nat (n : nat) : inject_Z (Z.of_nat (S n)) == inject_Z (Z.of_nat n) + 1.
Proof. rewrite Nat2Z.inj_succ; unfold Z.succ; rewrite inject_Z_plus; reflexivity. Qed.

Lemma sum_Q_lower (xs : list Z) (mn : Q) :
  (forall x, In x xs -> mn <= inject_Z x) ->
  mn * inject_Z (Z.of_nat (List.length xs)) <= sum_Q (map inject_Z xs).
Proof.
  induction xs as [|x xs IH]; intros H; unfold sum_Q in *.
  - change (inject_Z (Z.of_nat (List.length []))) with 0; simpl; lra.
  - change (List.length (x :: xs)) with (S (List.length xs)).
    change (map inject_Z (x :: xs)) with (inject_Z x :: map inject_Z xs).
    change (fold_right Qplus 0 (inject_Z x :: map inject_Z xs))
      with (inject_Z x + fold_right Qplus 0 (map inject_Z xs)).
    rewrite inject_Z_succ_nat.
    assert (H1 := H x (or_introl eq_refl)).
    assert (H2 := IH (fun y Hy => H y (or_intror Hy))); lra.
Qed.

Lemma sum_Q_upper (xs : list Z) (mx : Q) :
  (forall x, In x xs -> inject_Z x <= mx) ->
  sum_Q (map inject_Z xs) <= mx * inject_Z (Z.of_nat (List.length xs)).
Proof.
  induction xs as [|x xs IH]; intros H; unfold sum_Q in *.
  - change (inject_Z (Z.of_nat (List.length []))) with 0; simpl; lra.
  - change (List.length (x :: xs)) with (S (List.length xs)).
    change (map inject_Z (x :: xs)) with (inject_Z x :: map inject_Z xs).
    change (fold_right Qplus 0 (inject_Z x :: map inject_Z xs))
      with (inject_Z x + fold_right Qplus 0 (map inject_Z xs)).
    rewrite inject_Z_succ_nat.
    assert (H1 := H x (or_introl eq_refl)).
    assert (H2 := IH (fun y Hy => H y (or_intror Hy))); lra.
Qed.

Lemma series_mean_between (xs : list Z) (mn m mx : Q) :
  series_min xs = Some mn -> series_mean xs = Some m -> series_max xs = Some mx ->
  mn <= m <= mx.
Proof.
  intros Hmn Hm Hmx.
  assert (Hpos : 0 < inject_Z (Z.of_nat (List.length xs))).
  { destruct xs as [|x l]; [discriminate|]; change 0 with (inject_Z 0).
    rewrite <- Zlt_Qlt; simpl; lia. }
  destruct xs as [|x l] eqn:E; [discriminate|]; rewrite <- E in *.
  assert (Hm' : m = sum_Q (map inject_Z xs) / inject_Z (Z.of_nat (List.length xs)))
    by (rewrite E in Hm |- *; injection Hm as <-; reflexivity).
  subst m; split.
  - apply Qle_shift_div_l; [exact Hpos|].
    apply sum_Q_lower; intros y Hy; eapply series_min_le; eauto.
  - apply Qle_shift_div_r; [exact Hpos|].
    apply sum_Q_upper; intros y Hy; eapply series_max_ge; eauto.
Qed.

Lemma In_prices_inv {C F} (rows : list (Row C F)) (p : Z) :
  In p (prices rows) -> exists r, In r rows /\ price r = Some p.
Proof.
  unfold prices; rewrite in_flat_map; intros [r [Hr Hp]].
  destruct (price r) as [p'|] eqn:E; simpl in Hp; [|tauto].
  destruct Hp as [<-|[]]; eauto.
Qed.

(** The recorded statistics are ordered: [min <= mean <= max], and both
    extremes lie within the outlier bounds computed from the recorded
    [Q1] and [Q3]. *)
Theorem cleaner_price_stats_order (table : list RawRow) (mn m mx : Q) :
  let out := load_and_preprocess_data DT to_datetime qsqrt table in
  ps_min (snd out) = Some mn -> ps_mean (snd out) = Some m ->
  ps_max (snd out) = Some mx ->
  mn <= m <= mx /\
  exists lb ub, outlier_bounds (ps_Q1 (snd out)) (ps_Q3 (snd out)) = (Some lb, Some ub) /\
                lb <= mn /\ mx <= ub.
Proof.
  intros out.
  set (deduped := drop_duplicates table).
  set (Q1 := quantile (1 # 4) (prices deduped)).
  set (Q3 := quantile (3 # 4) (prices deduped)).
  destruct (outlier_bounds Q1 Q3) as [lb0 ub0] eqn:Eb.
  set (kept := filter (fun r => in_bounds lb0 ub0 (price r)) deduped).
  assert (Hs : snd out = stats_of qsqrt kept Q1 Q3).
  { unfold out, load_and_preprocess_data; fold deduped Q1 Q3; rewrite Eb; reflexivity. }
  rewrite Hs; unfold stats_of; simpl; intros Hmn Hm Hmx.
  split; [eapply series_mean_between; eauto|].
  rewrite Eb.
  destruct (series_min_In _ _ Hmn) as [pmn [Hpmn ->]].
  destruct (series_max_In _ _ Hmx) as [pmx [Hpmx ->]].
  destruct (In_prices_inv _ _ Hpmn) as [rmn [Hrmn Emn]].
  destruct (In_prices_inv _ _ Hpmx) as [rmx [Hrmx Emx]].
  apply filter_In in Hrmn as [_ Bmn]; apply filter_In in Hrmx as [_ Bmx].
  rewrite Emn in Bmn; rewrite Emx in Bmx; unfold in_bounds in Bmn, Bmx.
  destruct lb0 as [lb|]; [|discriminate]; destruct ub0 as [ub|]; [|discriminate].
  apply andb_true_iff in Bmn as [B1 _]; apply andb_true_iff in Bmx as [_ B2].
  apply Qle_bool_iff in B1; apply Qle_bool_iff in B2.
  exists lb, ub; auto.
Qed.

(* ------------------------------------------------------------------ *)
(** ** The training feature matrix *)

Lemma complete_fold_target (fr : list (string * option Z)) (p p' : Z)
    (row : list (string * Z)) :
  fold_right (fun '(c, v) acc =>
    match v, acc with
    | Some x, Some (row, p') => Some ((c, x) :: row, p')
    | _, _ => None
    end) (Some ([], p)) fr = Some (row, p') -> p' = p.
Proof.
  revert row p'; induction fr as [|[c v] fr IH]; intros row p' H; simpl in H.
  - injection H as _ <-; reflexivity.
  - destruct v as [x|]; [|discriminate].
    destruct (fold_right _ _ fr) as [[row0 p0]|] eqn:E; [|discriminate].
    injection H as _ <-; apply (IH row0 p0); reflexivity.
Qed.

Lemma complete_row_spec (fr : list (string * option Z)) (y : option Z)
    (row : list (string * Z)) (p : Z) :
  complete_row fr y = Some (row, p) ->
  y = Some p /\ fr = map (fun cx => (fst cx, Some (snd cx))) row.
Proof.
  unfold complete_row; destruct y as [p0|]; [|discriminate]; intros H.
  split; [f_equal; symmetry; eapply complete_fold_target; exact H|eapply complete_fold; exact H].
Qed.

Lemma assoc_map_pair_In {A} (f : string -> A) (cols : list string) (k : string) :
  In k cols -> assoc k (map (fun c => (c, f c)) cols) = Some (f k).
Proof.
  induction cols as [|c cols IH]; simpl; [intros []|]; intros Hk.
  destruct (String.eqb_spec k c) as [->|Hne]; [reflexivity|].
  apply IH; destruct Hk as [Hck|Hk]; [exfalso; exact (Hne (eq_sym Hck))|exact Hk].
Qed.

Lemma feature_row_keys (df : list (CleanRow DT)) (encoders : list (string * LabelEncoder))
    (r : CleanRow DT) :
  map fst (feature_row DT dt_hour dt_dayofweek dt_month dt_days_between df encoders r)
  = all_feature_columns.
Proof. unfold feature_row; rewrite map_map; simpl; reflexivity. Qed.

Lemma feature_eng_rows (df : list (CleanRow DT)) :
  fo_X (feature_eng df) =
    map fst (filter_map (fun r => complete_row
      (feature_row DT dt_hour dt_dayofweek dt_month dt_days_between df
         (fo_label_encoders (feature_eng df)) r) (price r)) df) /\
  fo_y (feature_eng df) =
    map snd (filter_map (fun r => complete_row
      (feature_row DT dt_hour dt_dayofweek dt_month dt_days_between df
         (fo_label_encoders (feature_eng df)) r) (price r)) df) /\
  fo_label_encoders (feature_eng df) =
    map (fun col => (col, le_fit (map (fun r => astype_str (categorical_value DT col r)) df)))
      categorical_cols.
Proof. repeat split. Qed.

(** [feature_engineering] returns as many feature rows as targets, and the
    [i]-th feature row and target come from one cleaned row: the target is
    its price and the feature row is its full row of the 20 feature columns,
    in the order of [feature_columns], with no NaN. *)
Theorem feature_matrix_alignment (df : list (CleanRow DT)) :
  fo_feature_columns (feature_eng df) = all_feature_columns /\
  List.length (fo_X (feature_eng df)) = List.length (fo_y (feature_eng df)) /\
  forall i row y,
    nth_error (fo_X (feature_eng df)) i = Some row ->
    nth_error (fo_y (feature_eng df)) i = Some y ->
    exists r, In r df /\ price r = Some y /\ map fst row = all_feature_columns /\
      feature_row DT dt_hour dt_dayofweek dt_month dt_days_between df
        (fo_label_encoders (feature_eng df)) r
      = map (fun cx => (fst cx, Some (snd cx))) row.
Proof.
  destruct (feature_eng_rows df) as (HX & Hy & _).
  split; [reflexivity|]; rewrite HX, Hy; split; [rewrite !length_map; reflexivity|].
  intros i row y Hrow Hyi.
  rewrite nth_error_map in Hrow, Hyi.
  destruct (nth_error _ i) as [[row' y']|] eqn:E; simpl in Hrow, Hyi; [|discriminate].
  injection Hrow as ->; injection Hyi as ->.
  apply nth_error_In, In_filter_map in E as [r [Hr Hc]].
  apply complete_row_spec in Hc as [Hp Hfr].
  exists r; split; [exact Hr|split; [exact Hp|split; [|exact Hfr]]].
  rewrite <- (feature_row_keys df (fo_label_encoders (feature_eng df)) r), Hfr, map_map.
  apply map_ext; reflexivity.
Qed.

Lemma feature_row_encoded (df : list (CleanRow DT)) (encoders : list (string * LabelEncoder))
    (r : CleanRow DT) (col : string) :
  In col categorical_cols ->
  assoc (col ++ "_encoded")
    (feature_row DT dt_hour dt_dayofweek dt_month dt_days_between df encoders r) =
  Some (match assoc col encoders with
        | Some le => le_transform le (astype_str (categorical_value DT col r))
        | None => None
        end).
Proof.
  intros Hc; simpl in Hc; repeat (destruct Hc as [<-|Hc]; [reflexivity|]); destruct Hc.
Qed.

(** Every training row's encoded categorical features are codes of the
    encoder fitted for that column, in [[0, |classes_|)], and decoding each
    one gives back the row's value of that column (as [astype(str)] wrote
    it): fitting on the whole table means no training value is unseen. *)
Theorem training_codes_decode (df : list (CleanRow DT)) (row : list (string * Z)) :
  In row (fo_X (feature_eng df)) ->
  exists r, In r df /\
    forall col, In col categorical_cols ->
      exists le code,
        assoc col (fo_label_encoders (feature_eng df)) = Some le /\
        assoc (col ++ "_encoded") row = Some code /\
        (0 <= code < Z.of_nat (List.length (classes_ le)))%Z /\
        le_inverse_transform le code = Some (astype_str (categorical_value DT col r)).
Proof.
  destruct (feature_eng_rows df) as (HX & _ & Henc).
  rewrite HX; intros Hin.
  apply in_map_iff in Hin as [[row' y] [Heq Hin]]; simpl in Heq; subst row'.
  apply In_filter_map in Hin as [r [Hr Hc]].
  apply complete_row_spec in Hc as [_ Hfr].
  exists r; split; [exact Hr|]; intros col Hcol.
  set (vals := map (fun r => astype_str (categorical_value DT col r)) df).
  assert (Hle : assoc col (fo_label_encoders (feature_eng df)) = Some (le_fit vals)).
  { rewrite Henc; apply (assoc_map_pair_In (fun col =>
      le_fit (map (fun r => astype_str (categorical_value DT col r)) df))); exact Hcol. }
  assert (Hv : In (astype_str (categorical_value DT col r)) (classes_ (le_fit vals))).
  { apply le_fit_In; unfold vals; apply in_map_iff; exists r; auto. }
  destruct (le_fit_roundtrip vals _ Hv) as [code [Ht Hinv]].
  exists (le_fit vals), code; split; [exact Hle|].
  pose proof (feature_row_encoded df (fo_label_encoders (feature_eng df)) r col Hcol) as He.
  rewrite Hle, Ht, Hfr, assoc_some_map in He.
  destruct (assoc (col ++ "_encoded") row) as [c|]; simpl in He; [|discriminate].
  injection He as ->; split; [reflexivity|split; [|exact Hinv]].
  unfold le_inverse_transform in Hinv.
  destruct (Z.ltb_spec code 0); [discriminate|].
  assert (Hlt : (Z.to_nat code < List.length (classes_ (le_fit vals)))%nat)
    by (apply nth_error_Some; congruence).
  lia.
Qed.

Lemma filter_all_false {A} (f : A -> bool) (l : list A) :
  (forall x, f x = false) -> filter f l = [].
Proof. intros H; induction l as [|x l IH]; simpl; [reflexivity|]; rewrite H; exact IH. Qed.

Lemma filter_length_le' {A} (f : A -> bool) (l : list A) :
  (List.length (filter f l) <= List.length l)%nat.
Proof. induction l as [|x l IH]; simpl; [lia|]; destruct (f x); simpl; lia. Qed.

Lemma filter_self_length {A} (f : A -> bool) (l : list A) (x : A) :
  In x l -> f x = true -> (1 <= List.length (filter f l))%nat.
Proof.
  intros Hx Hf; destruct (filter f l) as [|y l'] eqn:E; simpl; [|lia].
  assert (In x (filter f l)) by (apply filter_In; auto); rewrite E in H; destruct H.
Qed.

Lemma opt_str_eqb_refl (s : string) : opt_str_eqb (Some s) (Some s) = true.
Proof. apply String.eqb_refl. Qed.

Lemma opt_str_eqb_None (a : option string) : opt_str_eqb a None = false.
Proof. destruct a; reflexivity. Qed.

(** The popularity features of a training row count the cleaned rows with
    the same route (the same airline): at least one, the row itself, when
    the key is known, and 0 when an airport (the flight number) is NaN,
    which [groupby] and [value_counts] leave out. *)
Theorem popularity_counts (df : list (CleanRow DT)) (row : list (string * Z)) :
  In row (fo_X (feature_eng df)) ->
  exists r rp ap, In r df /\
    assoc "route_popularity" row = Some rp /\ assoc "airline_popularity" row = Some ap /\
    (departure_airport r <> None -> arrival_airport r <> None -> 1 <= rp)%Z /\
    (departure_airport r = None \/ arrival_airport r = None -> rp = 0)%Z /\
    (flight_number r <> None -> 1 <= ap)%Z /\
    (flight_number r = None -> ap = 0)%Z /\
    (rp <= Z.of_nat (List.length df))%Z /\ (ap <= Z.of_nat (List.length df))%Z.
Proof.
  destruct (feature_eng_rows df) as (HX & _ & _).
  rewrite HX; intros Hin.
  apply in_map_iff in Hin as [[row' y] [Heq Hin]]; simpl in Heq; subst row'.
  apply In_filter_map in Hin as [r [Hr Hc]].
  apply complete_row_spec in Hc as [_ Hfr].
  assert (Hrp := f_equal (assoc "route_popularity") Hfr).
  assert (Hap := f_equal (assoc "airline_popularity") Hfr).
  cbv beta in Hrp, Hap; rewrite assoc_some_map in Hrp, Hap.
  change (Some (Some (route_count DT df r)) = option_map Some (assoc "route_popularity" row))
    in Hrp.
  change (Some (Some (airline_count DT df r)) = option_map Some (assoc "airline_popularity" row))
    in Hap.
  destruct (assoc "route_popularity" row) as [rp|]; [|discriminate].
  destruct (assoc "airline_popularity" row) as [ap|]; [|discriminate].
  injection Hrp as <-; injection Hap as <-.
  exists r, (route_count DT df r), (airline_count DT df r).
  unfold route_count, airline_count.
  split; [exact Hr|split; [reflexivity|split; [reflexivity|]]].
  pose proof (filter_length_le' (fun r' =>
    opt_str_eqb (departure_airport r') (departure_airport r) &&
    opt_str_eqb (arrival_airport r') (arrival_airport r)) df).
  pose proof (filter_length_le' (fun r' => opt_str_eqb (airline_of r') (airline_of r)) df).
  repeat split; try lia.
  - destruct (departure_airport r) as [da|] eqn:Hda; [|congruence];
      destruct (arrival_airport r) as [aa|] eqn:Haa; [|congruence]; intros _ _.
    pose proof (filter_self_length (fun r' => opt_str_eqb (departure_airport r') (Some da) &&
      opt_str_eqb (arrival_airport r') (Some aa)) df r Hr) as H1.
    cbv beta in H1; rewrite Hda, Haa, !opt_str_eqb_refl in H1; specialize (H1 eq_refl); simpl in H1; lia.
  - intros [Hn|Hn]; rewrite Hn, filter_all_false; try reflexivity; intros x;
      rewrite opt_str_eqb_None; [reflexivity|apply andb_false_r].
  - unfold airline_of; destruct (flight_number r) as [fn|] eqn:Hfn; [|congruence]; intros _.
    pose proof (filter_self_length (fun r' => opt_str_eqb (airline_of r')
      (option_map prefix2 (Some fn))) df r Hr) as H1.
    unfold airline_of in H1; rewrite Hfn in H1; simpl in H1;
      rewrite String.eqb_refl in H1; specialize (H1 eq_refl); simpl; lia.
  - unfold airline_of at 2; intros Hn; rewrite Hn, filter_all_false; [reflexivity|].
    intros x; apply opt_str_eqb_None.
  - apply Nat2Z.inj_le, filter_length_le'.
  - apply Nat2Z.inj_le, filter_length_le'.
Qed.

(* ------------------------------------------------------------------ *)
(** ** Model selection on a fresh predictor *)

Lemma min_key_aux_first {A} (f : A -> Q) (l : list A) (best : A) :
  exists pre post, best :: l = app pre (min_key_aux f best l :: post) /\
    (forall x, In x pre -> f (min_key_aux f best l) < f x) /\
    (forall x, In x post -> f (min_key_aux f best l) <= f x).
Proof.
  revert best; induction l as [|x l IH]; intros best; simpl.
  - exists [], []; simpl; split; [reflexivity|split; tauto].
  - destruct (Qlt_bool (f x) (f best)) eqn:Hlt.
    + apply Qlt_bool_true in Hlt.
      destruct (IH x) as (pre & post & Heq & Hpre & Hpost).
      destruct (min_key_aux_spec f l x) as (_ & Hle & _).
      exists (best :: pre), post; split; [rewrite Heq; reflexivity|split; [|exact Hpost]].
      intros y [<-|Hy]; [eapply Qle_lt_trans; eauto|auto].
    + apply Qlt_bool_false in Hlt.
      destruct (IH best) as (pre & post & Heq & Hpre & Hpost).
      set (m := min_key_aux f best l) in *.
      destruct pre as [|b pre].
      * simpl in Heq; injection Heq as Hm Hl; subst post.
        exists [], (x :: l); split; [rewrite <- Hm; reflexivity|split; [simpl; tauto|]].
        intros y [<-|Hy]; [rewrite <- Hm; exact Hlt|apply Hpost; exact Hy].
      * simpl in Heq; injection Heq as <- Heq.
        exists (best :: x :: pre), post; split; [rewrite Heq; reflexivity|split; [|exact Hpost]].
        intros y [<-|[<-|Hy]]; [apply Hpre; left; reflexivity| |apply Hpre; right; exact Hy].
        eapply Qlt_le_trans; [apply Hpre; left; reflexivity|exact Hlt].
Qed.

Lemma fresh_results (evaluate : string -> CandidateResult) :
  fold_left (fun d name => dict_set name (evaluate name) d) model_names [] =
  map (fun n => (n, evaluate n)) model_names.
Proof. reflexivity. Qed.

(** On a fresh predictor, [self.results] holds the three candidates in the
    order they are trained, and the selected one is the first candidate
    whose mean cross-validated MAE is the minimum: every candidate before it
    has a strictly larger error, every one after it a larger or equal one. *)
Theorem select_first_minimum (evaluate : string -> CandidateResult) :
  snd (train_and_evaluate_models [] evaluate) = map (fun n => (n, evaluate n)) model_names /\
  exists pre name post,
    model_names = app pre (name :: post) /\
    fst (train_and_evaluate_models [] evaluate) = Some (name, cr_model (evaluate name)) /\
    (forall k, In k pre -> cv_mae_mean (evaluate name) < cv_mae_mean (evaluate k)) /\
    (forall k, In k post -> cv_mae_mean (evaluate name) <= cv_mae_mean (evaluate k)).
Proof.
  unfold train_and_evaluate_models; rewrite fresh_results.
  set (D := map (fun n => (n, evaluate n)) model_names).
  assert (HD : forall k, In k model_names -> assoc k D = Some (evaluate k)).
  { intros k Hk; simpl in Hk; repeat (destruct Hk as [<-|Hk]; [reflexivity|]); destruct Hk. }
  assert (Hcv : forall k, In k model_names -> results_cv D k = cv_mae_mean (evaluate k)).
  { intros k Hk; unfold results_cv; rewrite (HD k Hk); reflexivity. }
  destruct (min_key_aux_first (results_cv D) ["Gradient Boosting"; "Decision Tree"]
              "Random Forest") as (pre & post & Heq & Hpre & Hpost).
  set (b := min_key_aux (results_cv D) "Random Forest" ["Gradient Boosting"; "Decision Tree"])
    in *.
  assert (Hmn : model_names = app pre (b :: post)) by exact Heq.
  assert (Hb : In b model_names) by (rewrite Hmn; apply in_or_app; right; left; reflexivity).
  assert (Hpre' : forall k, In k pre -> In k model_names)
    by (intros k Hk; rewrite Hmn; apply in_or_app; left; exact Hk).
  assert (Hpost' : forall k, In k post -> In k model_names)
    by (intros k Hk; rewrite Hmn; apply in_or_app; right; right; exact Hk).
  change (py_min_key (results_cv D) (map fst D)) with (Some b); cbv iota.
  rewrite (HD b Hb); split; [reflexivity|].
  exists pre, b, post; split; [exact Hmn|split; [reflexivity|split]].
  - intros k Hk; rewrite <- (Hcv b Hb), <- (Hcv k (Hpre' k Hk)); apply Hpre; exact Hk.
  - intros k Hk; rewrite <- (Hcv b Hb), <- (Hcv k (Hpost' k Hk)); apply Hpost; exact Hk.
Qed.

(* ------------------------------------------------------------------ *)
(** ** Assembling the feature vector *)

Lemma iterM_missing (df : Frame DT) (cols : list string) (log : list message) :
  iterM (fun col => match assoc col df with
                    | Some _ => ret tt
                    | None => tell (FeatureMissing col)
                    end) cols log =
  (Ok tt, app log (map FeatureMissing
     (filter (fun col => match assoc col df with Some _ => false | None => true end) cols))).
Proof.
  revert log; induction cols as [|c cols IH]; intros log; simpl.
  - rewrite app_nil_r; reflexivity.
  - unfold bind; destruct (assoc c df).
    + unfold ret; rewrite IH; reflexivity.
    + unfold tell; rewrite IH, <- app_assoc; reflexivity.
Qed.

Lemma bind_ok {A B} (c : M A) (k : A -> M B) (log log' : list message) (a : A) :
  c log = (Ok a, log') -> bind c k log = k a log'.
Proof. intros H; unfold bind; rewrite H; reflexivity. Qed.

Lemma assemble_cases (self : Predictor) (df : Frame DT) (cols : list string)
    (log : list message) :
  feature_columns self = Some cols ->
  let missing := filter (fun col => match assoc col df with Some _ => false | None => true end)
                   cols in
  (missing <> [] ->
     assemble DT self df log = (Err (KeyError missing), app log (map FeatureMissing missing))) /\
  ((forall c, In c cols -> exists x, assoc c df = Some (CNum DT x)) ->
     assemble DT self df log =
       (Ok (map (fun c => match assoc c df with Some (CNum _ (Some x)) => x | _ => 0 end) cols),
        log)).
Proof.
  intros Hfc missing; unfold assemble; rewrite Hfc.
  rewrite (bind_ok _ _ _ _ _ (iterM_missing df cols log)); fold missing; split.
  - intros Hne; destruct missing as [|m ms]; [congruence|reflexivity].
  - intros Hall.
    assert (Hm : missing = [])
      by (apply filter_absent_nil; intros c Hc; destruct (Hall c Hc) as [x Hx];
          eexists; exact Hx).
    rewrite Hm; cbn [map]; rewrite app_nil_r; apply mapM_pure; intros c Hc l.
    destruct (Hall c Hc) as [x Hx].
    unfold bind, get_col, cell_value; rewrite Hx; destruct x; reflexivity.
Qed.
(** [predict_single_flight] never applies the model to a frame that lacks
    one of the bundle's feature columns: when deriving and encoding the
    features succeed but some feature columns are absent, the report of
    lines 428-433 adds a [MISSING!] message for each of them, in the order
    of [feature_columns], to the messages of the earlier steps, and
    [df_input[self.feature_columns]] (line 435) raises a [KeyError] that
    lists exactly these columns in that order; lines 436-449 are not
    reached. The messages recorded are the warnings and the [MISSING!]
    lines; the [col: value] lines that line 431 prints for the present
    columns are not recorded. *)
Theorem predict_missing_columns (self : Predictor) (model : Regressor) (req : Request)
    (cols : list string) (df df' : Frame DT) (log log1 log2 : list message) :
  best_model self = Some model -> feature_columns self = Some cols ->
  derive_features DT to_datetime dt_hour dt_dayofweek dt_month dt_days_between dt_tz_aware
    self req log = (Ok df, log1) ->
  encode_categoricals DT self df log1 = (Ok df', log2) ->
  let missing := filter (fun col => match assoc col df' with Some _ => false | None => true end)
                   cols in
  missing <> [] ->
  predict self req log = (Err (KeyError missing), app log2 (map FeatureMissing missing)).
Proof.
  intros Hm Hfc Hd He missing Hne.
  assert (Hb : build self req log = (Err (KeyError missing), app log2 (map FeatureMissing missing))).
  { unfold build_input; rewrite (bind_ok _ _ _ _ _ Hd), (bind_ok _ _ _ _ _ He).
    exact (proj1 (assemble_cases self df' cols log2 Hfc) Hne). }
  unfold predict_single_flight; rewrite Hm; unfold bind at 1; rewrite Hb; reflexivity.
Qed.


(* ------------------------------------------------------------------ *)
(** ** Requests that [predict_single_flight] rejects *)

(** With a model loaded, a request without a [create_at] field raises
    [KeyError('create_at')], one whose [create_at] does not parse raises a
    [ValueError], and then likewise for [flight_date]: the two timestamps
    are read first, before any feature is derived or reported. *)
Theorem predict_datetime_errors (self : Predictor) (model : Regressor) (req : Request)
    (log : list message) :
  best_model self = Some model ->
  (assoc "create_at" req = None ->
     predict self req log = (Err (KeyError ["create_at"]), log)) /\
  (forall sca, assoc "create_at" req = Some sca -> to_datetime sca = None ->
     exists msg, predict self req log = (Err (ValueError msg), log)) /\
  (forall sca ca, assoc "create_at" req = Some sca -> to_datetime sca = Some ca ->
     assoc "flight_date" req = None ->
     predict self req log = (Err (KeyError ["flight_date"]), log)) /\
  (forall sca ca sfd, assoc "create_at" req = Some sca -> to_datetime sca = Some ca ->
     assoc "flight_date" req = Some sfd -> to_datetime sfd = None ->
     exists msg, predict self req log = (Err (ValueError msg), log)).
Proof.
  intros Hm; unfold predict_single_flight, build_input, derive_features; rewrite Hm.
  unfold to_datetime_col, get_date, get_col, get_mean, bind, ret, raise.
  repeat split.
  - intros Hca; rewrite assoc_request, Hca; reflexivity.
  - intros sca Hca Hp; rewrite assoc_request, Hca; cbn [option_map]; rewrite Hp;
      eexists; reflexivity.
  - intros sca ca Hca Hp Hfd; rewrite assoc_request, Hca; cbn [option_map]; rewrite Hp.
    rewrite assoc_set_col; reduce_frame; rewrite assoc_request, Hfd; reflexivity.
  - intros sca ca sfd Hca Hp Hfd Hpf; rewrite assoc_request, Hca; cbn [option_map]; rewrite Hp.
    rewrite assoc_set_col; reduce_frame; rewrite assoc_request, Hfd; cbn [option_map].
    rewrite Hpf; eexists; reflexivity.
Qed.

(** With both timestamps parsable, a request whose [create_at] and
    [flight_date] differ in carrying a UTC offset raises [TypeError] at the
    subtraction giving [days_in_advance].  Otherwise a request without
    [departure_time] raises [KeyError('departure_time')], then one without
    [arrival_time] [KeyError('arrival_time')], and, once the route
    statistics are read, one without [flight_number]
    [KeyError('flight_number')]; none of them logs a warning or a
    missing-column line first. *)
Theorem predict_missing_field_errors (self : Predictor) (model : Regressor) (req : Request)
    (sca sfd : string) (ca fd : DT) (log : list message) :
  best_model self = Some model ->
  assoc "create_at" req = Some sca -> to_datetime sca = Some ca ->
  assoc "flight_date" req = Some sfd -> to_datetime sfd = Some fd ->
  (dt_tz_aware fd <> dt_tz_aware ca ->
     predict self req log =
       (Err (TypeError "Cannot subtract tz-naive and tz-aware datetime-like objects"), log)) /\
  (dt_tz_aware fd = dt_tz_aware ca -> assoc "departure_time" req = None ->
     predict self req log = (Err (KeyError ["departure_time"]), log)) /\
  (forall sdep, dt_tz_aware fd = dt_tz_aware ca ->
     assoc "departure_time" req = Some sdep -> assoc "arrival_time" req = None ->
     predict self req log = (Err (KeyError ["arrival_time"]), log)) /\
  (forall sdep sarr rs, dt_tz_aware fd = dt_tz_aware ca ->
     assoc "departure_time" req = Some sdep ->
     assoc "arrival_time" req = Some sarr -> route_popularity_stats self = Some rs ->
     assoc "flight_number" req = None ->
     predict self req log = (Err (KeyError ["flight_number"]), log)).
Proof.
  intros Hm Hca Hcad Hfd Hfdd; unfold predict_single_flight, build_input, derive_features;
    rewrite Hm.
  unfold to_datetime_col, get_date, get_col, get_mean, bind, ret, raise.
  reduce_frame.
  repeat (first [ rewrite assoc_set_col | rewrite assoc_request | rewrite Hca
                | rewrite Hcad | rewrite Hfd | rewrite Hfdd ]; reduce_frame).
  repeat split.
  - intros Htz; rewrite (sub_dates_err fd ca log Htz); reflexivity.
  - intros Htz H; rewrite (sub_dates_ok fd ca log Htz); reduce_frame;
      repeat (first [rewrite assoc_set_col | rewrite assoc_request]; reduce_frame);
      rewrite H; reflexivity.
  - intros sdep Htz Hd Ha; rewrite (sub_dates_ok fd ca log Htz); reduce_frame;
      repeat (first [rewrite assoc_set_col | rewrite assoc_request]; reduce_frame);
      rewrite Hd; reduce_frame;
      repeat (first [rewrite assoc_set_col | rewrite assoc_request]; reduce_frame);
      rewrite Ha; reflexivity.
  - intros sdep sarr rs Htz Hd Ha Hrs Hfn; rewrite (sub_dates_ok fd ca log Htz); reduce_frame;
      repeat (first [rewrite assoc_set_col | rewrite assoc_request]; reduce_frame);
      rewrite Hd; reduce_frame;
      repeat (first [rewrite assoc_set_col | rewrite assoc_request]; reduce_frame);
      rewrite Ha; reduce_frame; rewrite Hrs; reduce_frame;
      repeat (first [rewrite assoc_set_col | rewrite assoc_request]; reduce_frame);
      rewrite Hfn; reflexivity.
Qed.


(* ------------------------------------------------------------------ *)
(** ** Successful predictions *)

Lemma encode_fold_values (self : Predictor) (cols : list string) (df : Frame DT)
    (log : list message) :
  (forall c, In c cols -> exists s, assoc c df = Some (CStr DT s)) ->
  (forall c, In c cols -> exists le, assoc c (label_encoders self) = Some le) ->
  (forall c c', In c cols -> In c' cols -> String.eqb c (c' ++ "_encoded") = false) ->
  NoDup (map (fun c => c ++ "_encoded") cols) ->
  exists df' w,
    foldM (encode_col DT self) df cols log = (Ok df', app log w) /\
    (forall k, (forall c, In c cols -> String.eqb k (c ++ "_encoded") = false) ->
       assoc k df' = assoc k df) /\
    (forall c s le, In c cols -> assoc c df = Some (CStr DT s) ->
       assoc c (label_encoders self) = Some le ->
       assoc (c ++ "_encoded") df' =
         Some (num DT (match le_transform le s with Some k => k | None => 0%Z end))) /\
    (forall m, In m w -> exists c s le, m = WarnUnseen c s /\ In c cols /\
       assoc c df = Some (CStr DT s) /\ assoc c (label_encoders self) = Some le /\
       le_transform le s = None).
Proof.
  revert df log; induction cols as [|col cols IH]; intros df log Hs Hl Hclash Hnd.
  - exists df, []; rewrite app_nil_r; split; [reflexivity|].
    split; [reflexivity|split; intros c; simpl; tauto].
  - destruct (Hs col (or_introl eq_refl)) as [s Hcol].
    destruct (Hl col (or_introl eq_refl)) as [le Hle].
    inversion Hnd as [|? ? Hnotin Hnd']; subst.
    set (code := match le_transform le s with Some c => c | None => 0%Z end).
    set (w1 := match le_transform le s with
               | Some _ => []
               | None => if negb (Nat.eqb (List.length (classes_ le)) 0)
                         then [WarnUnseen col s] else []
               end).
    set (df1 := set_col DT (col ++ "_encoded") (num DT code) df).
    assert (Hdf1 : forall c, In c cols -> assoc c df1 = assoc c df).
    { intros c Hc; unfold df1; rewrite assoc_set_col.
      rewrite (Hclash c col (or_intror Hc) (or_introl eq_refl)); reflexivity. }
    destruct (IH df1 (app log w1)) as (df' & w2 & Hfold & Hunch & Hval & Hwarn).
    + intros c Hc; rewrite Hdf1 by exact Hc; apply Hs; right; exact Hc.
    + intros c Hc; apply Hl; right; exact Hc.
    + intros c c' Hc Hc'; apply Hclash; right; assumption.
    + exact Hnd'.
    + assert (Hcol' : assoc (col ++ "_encoded") df' = Some (num DT code)).
      { rewrite Hunch.
        - unfold df1; rewrite assoc_set_col, String.eqb_refl; reflexivity.
        - intros c Hc; destruct (String.eqb_spec (col ++ "_encoded") (c ++ "_encoded"))
            as [Heq|]; [|reflexivity].
          exfalso; apply Hnotin; rewrite Heq.
          exact (in_map (fun c0 => c0 ++ "_encoded") cols c Hc). }
      exists df', (app w1 w2); split.
      { change (foldM (encode_col DT self) df (col :: cols) log)
          with (bind (encode_col DT self df col)
                  (fun a => foldM (encode_col DT self) a cols) log).
        unfold bind; rewrite (encode_col_step self df col s le log Hcol Hle).
        fold code w1 df1; rewrite Hfold, app_assoc; reflexivity. }
      split; [|split].
      * intros k Hk; rewrite Hunch by (intros c Hc; apply Hk; right; exact Hc).
        unfold df1; rewrite assoc_set_col, (Hk col (or_introl eq_refl)); reflexivity.
      * intros c s' le' [<-|Hc] Hs' Hle'.
        -- rewrite Hcol in Hs'; injection Hs' as <-.
           rewrite Hle in Hle'; injection Hle' as <-; exact Hcol'.
        -- rewrite <- (Hdf1 c Hc) in Hs'; exact (Hval c s' le' Hc Hs' Hle').
      * intros m Hm; apply in_app_or in Hm as [Hm|Hm].
        -- unfold w1 in Hm; destruct (le_transform le s) eqn:Ht; [destruct Hm|].
           destruct (negb _); [|destruct Hm].
           destruct Hm as [<-|[]]; exists col, s, le; repeat split; auto; left; reflexivity.
        -- destruct (Hwarn m Hm) as (c & s' & le' & -> & Hc & Hs' & Hle' & Ht).
           exists c, s', le'; rewrite <- (Hdf1 c Hc); repeat split; auto; right; exact Hc.
Qed.

(** The value of a categorical column in the request frame: the request's
    field, and for ["airline"] the prefix of the flight number. *)
Lemma build_input_values (self : Predictor) (cols : list string) (req : Request)
    (sca sfd sfn sdep sarr : string) (ca fd : DT) (rs aps : PopStats) (log : list message) :
  feature_columns self = Some cols ->
  (forall c, In c cols -> In c all_feature_columns) ->
  (forall c, In c categorical_cols -> exists le', assoc c (label_encoders self) = Some le') ->
  route_popularity_stats self = Some rs -> airline_popularity_stats self = Some aps ->
  assoc "create_at" req = Some sca -> to_datetime sca = Some ca ->
  assoc "flight_date" req = Some sfd -> to_datetime sfd = Some fd ->
  dt_tz_aware fd = dt_tz_aware ca ->
  assoc "departure_time" req = Some sdep -> assoc "arrival_time" req = Some sarr ->
  assoc "flight_number" req = Some sfn ->
  (forall c, In c ["departure_airport"; "arrival_airport"; "classes"; "type_of_plane"] ->
     exists s, assoc c req = Some s) ->
  exists df' w,
    build self req log =
      (Ok (map (fun c => match assoc c df' with Some (CNum _ (Some x)) => x | _ => 0 end) cols),
       app log w) /\
    (forall c, In c all_feature_columns -> exists x, assoc c df' = Some (CNum DT x)) /\
    (forall c s le, In c categorical_cols ->
       (if String.eqb c "airline" then Some (prefix2 sfn) else assoc c req) = Some s ->
       assoc c (label_encoders self) = Some le ->
       assoc (c ++ "_encoded") df' =
         Some (num DT (match le_transform le s with Some k => k | None => 0%Z end))) /\
    (forall m, In m w -> exists c s le, m = WarnUnseen c s /\ In c categorical_cols /\
       (if String.eqb c "airline" then Some (prefix2 sfn) else assoc c req) = Some s /\
       assoc c (label_encoders self) = Some le /\ le_transform le s = None).
Proof.
  intros Hfc Hsub Hles Hrs Has Hca Hcad Hfd Hfdd Htz Hdep Harr Hfn Hreq.
  destruct (derive_features_ok self req log sca sfd sfn sdep sarr ca fd rs aps
              Hca Hcad Hfd Hfdd Htz Hdep Harr Hfn Hrs Has) as (df & Hdf & Hnum & Hstr & Hair).
  assert (Hcs : forall c, In c categorical_cols ->
            exists s, assoc c df = Some (CStr DT s) /\
              (if String.eqb c "airline" then Some (prefix2 sfn) else assoc c req) = Some s).
  { intros c Hc; simpl in Hc.
    destruct Hc as [<-|Hc].
    { rewrite (Hstr "flight_number") by (simpl; tauto); rewrite Hfn; eexists; split; reflexivity. }
    repeat (destruct Hc as [<-|Hc];
      [match goal with
       | |- exists s, assoc ?c df = _ /\ _ =>
           destruct (Hreq c ltac:(simpl; tauto)) as [s Hs];
           rewrite (Hstr c ltac:(simpl; tauto)), Hs; exists s; split; reflexivity
       end|]).
    destruct Hc as [<-|[]]; exists (prefix2 sfn); split; [exact Hair|reflexivity]. }
  destruct (encode_fold_values self categorical_cols df log)
    as (df' & w & Henc & Hunch & Hval & Hwarn).
  - intros c Hc; destruct (Hcs c Hc) as (s & Hs & _); exists s; exact Hs.
  - exact Hles.
  - intros c c' Hc Hc'; simpl in Hc, Hc';
      repeat (destruct Hc as [<-|Hc]; [repeat (destruct Hc' as [<-|Hc']; [reflexivity|]); destruct Hc'|]);
      destruct Hc.
  - vm_compute; repeat constructor; simpl; intuition discriminate.
  - assert (Hall : forall c, In c all_feature_columns -> exists x, assoc c df' = Some (CNum DT x)).
    { intros c Hc.
      destruct (in_app_or (map (fun c => c ++ "_encoded") categorical_cols)
                  (skipn 6 all_feature_columns) c Hc) as [Hc'|Hc'].
      - apply in_map_iff in Hc'; destruct Hc' as (c0 & <- & Hc0).
        destruct (Hcs c0 Hc0) as (s & Hs & _); destruct (Hles c0 Hc0) as [le Hle].
        rewrite (Hval c0 s le Hc0 Hs Hle); eexists; reflexivity.
      - rewrite Hunch.
        + apply Hnum; exact Hc'.
        + intros c0 Hc0; simpl in Hc', Hc0;
            repeat (destruct Hc' as [<-|Hc']; [repeat (destruct Hc0 as [<-|Hc0]; [reflexivity|]); destruct Hc0|]);
            destruct Hc'. }
    destruct (assemble_cases self df' cols (app log w) Hfc) as [_ Hasm].
    specialize (Hasm (fun c Hc => Hall c (Hsub c Hc))).
    exists df', w; split; [|split; [exact Hall|split]].
    + unfold build_input, encode_categoricals, bind at 1; rewrite Hdf.
      unfold bind at 1; rewrite Henc; exact Hasm.
    + intros c s le Hc Hs Hle.
      destruct (Hcs c Hc) as (s' & Hs' & Hreq'); rewrite Hs in Hreq'; injection Hreq' as <-.
      exact (Hval c s le Hc Hs' Hle).
    + intros m Hm; destruct (Hwarn m Hm) as (c & s & le & -> & Hc & Hs & Hle & Ht).
      destruct (Hcs c Hc) as (s' & Hs' & Hreq'); rewrite Hs in Hs'; injection Hs' as <-.
      exists c, s, le; auto.
Qed.

(** For a request with parsable timestamps, all the fields the inference
    path reads, and values every fitted encoder knows, the prediction
    succeeds without printing a warning or a missing-column line: the
    feature vector holds, at each position of an encoded column, the
    encoder's code of the request's value (for ["airline"], of the flight
    number's first two characters), and the prediction is the model on that
    vector, clipped as usual. *)
Theorem predict_known_categories (self : Predictor) (model : Regressor)
    (cols : list string) (req : Request) (sca sfd sfn sdep sarr : string)
    (ca fd : DT) (rs aps : PopStats) (log : list message) :
  best_model self = Some model ->
  feature_columns self = Some cols ->
  (forall c, In c cols -> In c all_feature_columns) ->
  route_popularity_stats self = Some rs -> airline_popularity_stats self = Some aps ->
  assoc "create_at" req = Some sca -> to_datetime sca = Some ca ->
  assoc "flight_date" req = Some sfd -> to_datetime sfd = Some fd ->
  dt_tz_aware fd = dt_tz_aware ca ->
  assoc "departure_time" req = Some sdep -> assoc "arrival_time" req = Some sarr ->
  assoc "flight_number" req = Some sfn ->
  (forall c, In c categorical_cols ->
     exists s le code,
       (if String.eqb c "airline" then Some (prefix2 sfn) else assoc c req) = Some s /\
       assoc c (label_encoders self) = Some le /\ le_transform le s = Some code) ->
  exists X_input,
    build self req log = (Ok X_input, log) /\
    (forall c s le code i, In c categorical_cols ->
       (if String.eqb c "airline" then Some (prefix2 sfn) else assoc c req) = Some s ->
       assoc c (label_encoders self) = Some le -> le_transform le s = Some code ->
       nth_error cols i = Some (c ++ "_encoded") -> nth_error X_input i = Some (inject_Z code)) /\
    predict self req log = (Ok (clip_prediction (price_stats self) (model X_input)), log).
Proof.
  intros Hm Hfc Hsub Hrs Has Hca Hcad Hfd Hfdd Htz Hdep Harr Hfn Hknown.
  destruct (build_input_values self cols req sca sfd sfn sdep sarr ca fd rs aps log
              Hfc Hsub) as (df' & w & Hb & _ & Hval & Hwarn); try assumption.
  - intros c Hc; destruct (Hknown c Hc) as (s & le & code & _ & Hle & _); eauto.
  - intros c Hc; destruct (Hknown c ltac:(simpl in Hc |- *; tauto)) as (s & le & code & Hs & _).
    simpl in Hc; repeat (destruct Hc as [<-|Hc]; [eexists; exact Hs|]); destruct Hc.
  - assert (Hw : w = []).
    { destruct w as [|m w]; [reflexivity|exfalso].
      destruct (Hwarn m (or_introl eq_refl)) as (c & s & le & _ & Hc & Hs & Hle & Ht).
      destruct (Hknown c Hc) as (s' & le' & code & Hs' & Hle' & Ht').
      rewrite Hs in Hs'; injection Hs' as <-; rewrite Hle in Hle'; injection Hle' as <-.
      congruence. }
    rewrite Hw, app_nil_r in Hb.
    eexists; split; [exact Hb|split].
    + intros c s le code i Hc Hs Hle Ht Hi.
      rewrite nth_error_map, Hi; simpl; rewrite (Hval c s le Hc Hs Hle), Ht; reflexivity.
    + unfold predict_single_flight; rewrite Hm, (bind_ok _ _ _ _ _ Hb); reflexivity.
Qed.

Lemma fresh_selection (evaluate : string -> CandidateResult) :
  exists name, In name model_names /\
    fst (train_and_evaluate_models [] evaluate) = Some (name, cr_model (evaluate name)).
Proof.
  unfold train_and_evaluate_models; rewrite fresh_results.
  set (D := map (fun n => (n, evaluate n)) model_names).
  destruct (min_key_aux_spec (results_cv D) ["Gradient Boosting"; "Decision Tree"]
              "Random Forest") as (Hin & _ & _).
  set (b := min_key_aux (results_cv D) "Random Forest" ["Gradient Boosting"; "Decision Tree"])
    in *.
  change (py_min_key (results_cv D) (map fst D)) with (Some b); cbv iota.
  assert (HD : assoc b D = Some (evaluate b))
    by (simpl in Hin; repeat (destruct Hin as [<-|Hin]; [reflexivity|]); destruct Hin).
  rewrite HD; exists b; split; [exact Hin|reflexivity].
Qed.

(** [run_complete_pipeline] followed by [load_model] gives a predictor with
    the cleaner's price statistics, the 20 feature columns and the encoders
    fitted on the cleaned table, and the model of one of the three
    candidates; with it, a request with parsable timestamps and all the
    fields the inference path reads gets a prediction: the chosen
    candidate's model applied to a vector of 20 features, clipped with the
    cleaner's statistics.  Values the encoders do not know only add
    warnings. *)
Theorem pipeline_bundle_predicts
    (fit : list (list (string * Z)) -> list Z -> string -> CandidateResult)
    (table : list RawRow) (req : Request) (sca sfd sfn sdep sarr : string) (ca fd : DT)
    (log : list message) :
  assoc "create_at" req = Some sca -> to_datetime sca = Some ca ->
  assoc "flight_date" req = Some sfd -> to_datetime sfd = Some fd ->
  dt_tz_aware fd = dt_tz_aware ca ->
  assoc "departure_time" req = Some sdep -> assoc "arrival_time" req = Some sarr ->
  assoc "flight_number" req = Some sfn ->
  (forall c, In c ["departure_airport"; "arrival_airport"; "classes"; "type_of_plane"] ->
     exists s, assoc c req = Some s) ->
  let cleaned := load_and_preprocess_data DT to_datetime qsqrt table in
  let fe := feature_eng (fst cleaned) in
  let self := load_model (fst (run_complete_pipeline to_datetime qsqrt dt_hour dt_dayofweek
                                 dt_month dt_days_between fit table)) in
  price_stats self = Some (snd cleaned) /\
  feature_columns self = Some all_feature_columns /\
  label_encoders self = fo_label_encoders fe /\
  exists name X_input log',
    In name model_names /\
    best_model self = Some (cr_model (fit (fo_X fe) (fo_y fe) name)) /\
    List.length X_input = 20%nat /\
    predict self req log =
      (Ok (clip_prediction (Some (snd cleaned)) (cr_model (fit (fo_X fe) (fo_y fe) name) X_input)),
       log').
Proof.
  intros Hca Hcad Hfd Hfdd Htz Hdep Harr Hfn Hreq cleaned fe self.
  destruct (fresh_selection (fit (fo_X fe) (fo_y fe))) as [name [Hname Hbest]].
  assert (Hself : self = mkPredictor (Some (cr_model (fit (fo_X fe) (fo_y fe) name)))
                           (Some name) (Some (fo_feature_columns fe)) (fo_label_encoders fe)
                           (Some (snd cleaned)) (Some (fo_route_popularity_stats fe))
                           (Some (fo_airline_popularity_stats fe))).
  { unfold self, run_complete_pipeline; fold cleaned.
    destruct cleaned as [df ps]; unfold fe in *; simpl fst in *; simpl snd.
    destruct (train_and_evaluate_models [] _) as [best results]; simpl in Hbest; subst best.
    reflexivity. }
  destruct (feature_eng_rows (fst cleaned)) as (_ & _ & Henc); fold fe in Henc.
  rewrite Hself; cbn [price_stats feature_columns label_encoders best_model].
  split; [reflexivity|split; [reflexivity|split; [reflexivity|]]].
  destruct (build_input_values
              (mkPredictor (Some (cr_model (fit (fo_X fe) (fo_y fe) name)))
                 (Some name) (Some (fo_feature_columns fe)) (fo_label_encoders fe)
                 (Some (snd cleaned)) (Some (fo_route_popularity_stats fe))
                 (Some (fo_airline_popularity_stats fe)))
              all_feature_columns req sca sfd sfn sdep sarr ca fd
              (fo_route_popularity_stats fe) (fo_airline_popularity_stats fe) log)
    as (df' & w & Hb & _ & _ & _); try assumption; try reflexivity.
  - tauto.
  - intros c Hc; cbn [label_encoders]; rewrite Henc.
    eexists; apply (assoc_map_pair_In (fun col =>
      le_fit (map (fun r => astype_str (categorical_value DT col r)) (fst cleaned)))); exact Hc.
  - exists name, (map (fun c => match assoc c df' with Some (CNum _ (Some x)) => x | _ => 0 end)
                   all_feature_columns), (app log w).
    split; [exact Hname|split; [reflexivity|split]].
    + rewrite length_map; reflexivity.
    + unfold predict_single_flight; cbn [best_model price_stats].
      rewrite (bind_ok _ _ _ _ _ Hb); reflexivity.
Qed.

End Properties.

(* ================================================================== *)
(** * Concrete runs *)

Local Abbreviation ex_predict :=
  (predict_single_flight Z ex_to_datetime ex_dt_hour ex_dt_dayofweek ex_dt_month
     ex_dt_days_between ex_dt_tz_aware).
Local Abbreviation ex_build :=
  (build_input Z ex_to_datetime ex_dt_hour ex_dt_dayofweek ex_dt_month
     ex_dt_days_between ex_dt_tz_aware).
Local Abbreviation ex_feature_eng :=
  (feature_engineering Z ex_qsqrt ex_dt_hour ex_dt_dayofweek ex_dt_month
     ex_dt_days_between).

(** C1 (counterexample): on [ex_table] the cheapest listing (price 50) has an
    unparsable creation timestamp.  The code still records 50 as the
    minimum price, although the surviving rows cost 100 and 200; cleaning in
    the stated order would record 100. *)
Lemma cleaner_order_cex :
  ps_min (snd (load_and_preprocess_data Z ex_to_datetime ex_qsqrt ex_table)) = Some 50 /\
  map price (fst (load_and_preprocess_data Z ex_to_datetime ex_qsqrt ex_table))
    = [Some 100%Z; Some 200%Z] /\
  ps_min (snd (load_and_preprocess_claimed_order Z ex_to_datetime ex_qsqrt ex_table))
    = Some 100.
Proof. vm_compute; repeat split. Qed.

(** C2 (counterexample): with training prices in [50000, 60000] the floor
    [max(50000, 100000)] lies above the ceiling [min(60000, 50000000)]; a raw
    output below the floor comes back as the ceiling 60000, not the floor. *)
Lemma clip_degenerate_cex :
  ex_build (load_model ex_md_degenerate) ex_req []
    = (Ok (map inject_Z [5; 3; 2; 1; 0; 4; 0; 0; 1; 1; 3; 45; 480; 135; 0; 0; 2; 0; 10; 20]%Z),
       [WarnUnseen "type_of_plane" "Airbus A321"]) /\
  Qlt_bool (ex_model (map inject_Z [5; 3; 2; 1; 0; 4; 0; 0; 1; 1; 3; 45; 480; 135;
                                    0; 0; 2; 0; 10; 20]%Z)) 100000 = true /\
  ex_predict (load_model ex_md_degenerate) ex_req []
    = (Ok (Some 60000), [WarnUnseen "type_of_plane" "Airbus A321"]).
Proof. vm_compute; repeat split. Qed.

(** C4 (failing input): a request without a ["classes"] field.  The bundle's
    feature columns list ["classes_encoded"]; the assembly reports it missing
    and then fails with a [KeyError] instead of filling it with 0. *)
Lemma predict_missing_column_keyerror :
  assoc "classes" ex_req_no_class = None /\
  feature_columns (load_model ex_md_degenerate) = Some all_feature_columns /\
  ex_predict (load_model ex_md_degenerate) ex_req_no_class []
    = (Err (KeyError ["classes_encoded"]),
       [WarnUnseen "type_of_plane" "Airbus A321"; FeatureMissing "classes_encoded"]).
Proof. vm_compute; repeat split. Qed.

(** C6 (counterexample): clock times "00:00" and "25:00" both parse, and the
    row's [flight_duration] is 1500. *)
Lemma duration_out_of_range_cex :
  exists row, In row (fo_X (ex_feature_eng [ex_clean_row])) /\
              assoc "flight_duration" row = Some 1500%Z.
Proof.
  exists (hd [] (fo_X (ex_feature_eng [ex_clean_row]))).
  split; vm_compute; [left|]; reflexivity.
Qed.

(* ------------------------------------------------------------------ *)
(** ** Witnesses: the theorems applied at concrete inputs *)

Lemma predict_clipping_witness :
  exists X_input,
    ex_build (load_model ex_md_degenerate) ex_req [] =
      (Ok X_input, [WarnUnseen "type_of_plane" "Airbus A321"]) /\
    (let raw := ex_model X_input in
     let floor := if Qlt_bool 50000 100000 then 100000 else 50000 in
     let ceiling := if Qlt_bool 50000000 60000 then 50000000 else 60000 in
     (floor <= ceiling ->
      (raw < floor -> Some 60000 = Some floor) /\
      (ceiling < raw -> Some 60000 = Some ceiling) /\
      (floor <= raw <= ceiling -> Some 60000 = Some raw)) /\
     (ceiling < floor -> Some 60000 = Some ceiling)).
Proof.
  apply (predict_clipping Z ex_to_datetime ex_dt_hour ex_dt_dayofweek ex_dt_month
           ex_dt_days_between ex_dt_tz_aware (load_model ex_md_degenerate) ex_model
           (mkPriceStats (Some 50000) (Some 60000) None None None None) 50000 60000);
    vm_compute; reflexivity.
Defined.

Lemma unseen_category_fallback_witness :
  le_transform (le_fit ["SGN"; "HAN"; "VJ1198"; "VJ"; "Eco"; "Airbus A320"])
    "Airbus A321" = None /\
  exists X_input log',
    ex_build (load_model ex_md_degenerate) ex_req [] = (Ok X_input, log') /\
    In (WarnUnseen "type_of_plane" "Airbus A321") log' /\
    (forall i, nth_error all_feature_columns i = Some ("type_of_plane" ++ "_encoded") ->
       nth_error X_input i = Some 0) /\
    ex_predict (load_model ex_md_degenerate) ex_req [] =
      (Ok (clip_prediction (price_stats (load_model ex_md_degenerate)) (ex_model X_input)),
       log').
Proof.
  split; [vm_compute; reflexivity|].
  apply (unseen_category_fallback Z ex_to_datetime ex_dt_hour ex_dt_dayofweek ex_dt_month
           ex_dt_days_between ex_dt_tz_aware (load_model ex_md_degenerate) ex_model all_feature_columns
           ex_req "0" "45T14" "VJ1198" "08:00" "10:15" 0%Z 45%Z
           (mkPopStats (Some 10) None) (mkPopStats (Some 20) None)
           "type_of_plane" "Airbus A321"
           (le_fit ["SGN"; "HAN"; "VJ1198"; "VJ"; "Eco"; "Airbus A320"]) []);
    try (vm_compute; reflexivity).
  - intros c Hc; exact Hc.
  - intros c Hc; simpl in Hc;
      repeat (destruct Hc as [<-|Hc]; [eexists; vm_compute; reflexivity|]); destruct Hc.
  - intros c Hc; simpl in Hc;
      repeat (destruct Hc as [<-|Hc]; [eexists; vm_compute; reflexivity|]); destruct Hc.
  - vm_compute; tauto.
  - vm_compute; discriminate.
Defined.

Lemma select_min_cv_mae_witness :
  (forall name, cv_mae_mean (ex_evaluate' name) = cv_mae_mean (ex_evaluate name)) /\
  (exists name r,
     fst (train_and_evaluate_models [] ex_evaluate) = Some (name, cr_model r) /\
     assoc name (snd (train_and_evaluate_models [] ex_evaluate)) = Some r /\
     (forall k r', assoc k (snd (train_and_evaluate_models [] ex_evaluate)) = Some r' ->
        cv_mae_mean r <= cv_mae_mean r')) /\
  option_map fst (fst (train_and_evaluate_models [] ex_evaluate')) =
    option_map fst (fst (train_and_evaluate_models [] ex_evaluate)).
Proof.
  assert (H : forall name, cv_mae_mean (ex_evaluate' name) = cv_mae_mean (ex_evaluate name)).
  { intros name; unfold ex_evaluate, ex_evaluate';
      destruct (String.eqb name "Random Forest"); [reflexivity|];
      destruct (String.eqb name "Gradient Boosting"); reflexivity. }
  split; [exact H|].
  exact (select_min_cv_mae Z ex_to_datetime [] ex_evaluate ex_evaluate' H).
Defined.

Lemma flight_duration_range_witness :
  exists row,
    In row (fo_X (ex_feature_eng [ex_clean_row])) /\
    exists r d a fd,
      In r [ex_clean_row] /\
      FeatureEngineering.time_to_minutes (departure_time r) = Some d /\
      FeatureEngineering.time_to_minutes (arrival_time r) = Some a /\
      assoc "flight_duration" row = Some fd /\
      fd = (if (a - d <? 0)%Z then (a - d + 1440)%Z else (a - d)%Z) /\
      ((0 <= d < 1440)%Z -> (0 <= a < 1440)%Z -> (0 <= fd < 1440)%Z).
Proof.
  assert (H : In (hd [] (fo_X (ex_feature_eng [ex_clean_row])))
                 (fo_X (ex_feature_eng [ex_clean_row])))
    by (vm_compute; left; reflexivity).
  exists (hd [] (fo_X (ex_feature_eng [ex_clean_row]))); split; [exact H|].
  exact (flight_duration_range Z ex_qsqrt ex_dt_hour ex_dt_dayofweek ex_dt_month
           ex_dt_days_between [ex_clean_row] _ H).
Defined.

Lemma label_encoder_roundtrip_witness :
  assoc "type_of_plane" (fo_label_encoders (ex_feature_eng [ex_clean_row]))
    = Some (mkLabelEncoder ["Airbus A321"]) /\
  (forall v, In v (classes_ (mkLabelEncoder ["Airbus A321"])) ->
     exists code, le_transform (mkLabelEncoder ["Airbus A321"]) v = Some code /\
                  le_inverse_transform (mkLabelEncoder ["Airbus A321"]) code = Some v) /\
  (forall code v, le_inverse_transform (mkLabelEncoder ["Airbus A321"]) code = Some v ->
     le_transform (mkLabelEncoder ["Airbus A321"]) v = Some code).
Proof.
  assert (H : assoc "type_of_plane" (fo_label_encoders (ex_feature_eng [ex_clean_row]))
                = Some (mkLabelEncoder ["Airbus A321"])) by (vm_compute; reflexivity).
  split; [exact H|].
  exact (label_encoder_roundtrip Z ex_to_datetime ex_qsqrt ex_dt_hour ex_dt_dayofweek
           ex_dt_month ex_dt_days_between [ex_clean_row] "type_of_plane" _ H).
Defined.

Lemma predict_without_model_witness :
  best_model init_predictor = None /\
  ex_predict init_predictor ex_req [] = (Err (ValueError "? model"), []).
Proof.
  split; [reflexivity|].
  exact (predict_without_model Z ex_to_datetime ex_dt_hour ex_dt_dayofweek ex_dt_month
           ex_dt_days_between ex_dt_tz_aware init_predictor eq_refl ex_req []).
Defined.

Lemma old_bundle_unclipped_witness :
  md_price_stats ex_md_old = None /\
  ex_predict (load_model ex_md_old) ex_req [] =
    (let (r, log') := ex_build (load_model ex_md_old) ex_req [] in
     match r with
     | Ok X_input => (Ok (Some (ex_model X_input)), log')
     | Err e => (Err e, log')
     end).
Proof.
  split; [reflexivity|].
  exact (old_bundle_unclipped Z ex_to_datetime ex_dt_hour ex_dt_dayofweek ex_dt_month
           ex_dt_days_between ex_dt_tz_aware ex_md_old ex_model eq_refl eq_refl ex_req []).
Defined.

Lemma cleaner_ignores_repeated_rows_witness :
  (forall r, In r [ex_raw_row (Some "0") 100] -> In r ex_table) /\
  load_and_preprocess_data Z ex_to_datetime ex_qsqrt (app ex_table [ex_raw_row (Some "0") 100])
    = load_and_preprocess_data Z ex_to_datetime ex_qsqrt ex_table.
Proof.
  assert (H : forall r, In r [ex_raw_row (Some "0") 100] -> In r ex_table)
    by (intros r [<-|[]]; right; left; reflexivity).
  split; [exact H|].
  exact (cleaner_ignores_repeated_rows Z ex_to_datetime ex_qsqrt ex_table _ H).
Defined.


Lemma cleaned_row_provenance_witness :
  exists r, In r (fst (load_and_preprocess_data Z ex_to_datetime ex_qsqrt ex_table)) /\
  exists raw sca sfd stp,
    In raw ex_table /\
    create_at raw = Some sca /\
    flight_date raw = Some sfd /\ contains_char "T" sfd = true /\
    ex_to_datetime sfd = Some (flight_date r) /\
    type_of_plane raw = Some stp /\ type_of_plane r = Some (strip stp) /\
    strip stp <> "" /\
    flight_number r = flight_number raw /\
    departure_airport r = departure_airport raw /\
    arrival_airport r = arrival_airport raw /\
    departure_time r = departure_time raw /\ arrival_time r = arrival_time raw /\
    classes r = classes raw /\ price r = price raw.
Proof.
  assert (H : In (hd ex_clean_row (fst (load_and_preprocess_data Z ex_to_datetime ex_qsqrt ex_table)))
                 (fst (load_and_preprocess_data Z ex_to_datetime ex_qsqrt ex_table)))
    by (vm_compute; left; reflexivity).
  eexists; split; [exact H|].
  exact (cleaned_row_provenance Z ex_to_datetime ex_qsqrt ex_table _ H).
Defined.

Lemma cleaner_price_stats_order_witness :
  let out := load_and_preprocess_data Z ex_to_datetime ex_qsqrt ex_table in
  ps_min (snd out) = Some 50 /\ ps_mean (snd out) = Some (350 # 3) /\
  ps_max (snd out) = Some 200 /\
  50 <= 350 # 3 <= 200 /\
  (exists lb ub, outlier_bounds (ps_Q1 (snd out)) (ps_Q3 (snd out)) = (Some lb, Some ub) /\
     lb <= 50 /\ 200 <= ub).
Proof.
  intros out.
  assert (H1 : ps_min (snd out) = Some 50) by (vm_compute; reflexivity).
  assert (H2 : ps_mean (snd out) = Some (350 # 3)) by (vm_compute; reflexivity).
  assert (H3 : ps_max (snd out) = Some 200) by (vm_compute; reflexivity).
  split; [exact H1|split; [exact H2|split; [exact H3|]]].
  exact (cleaner_price_stats_order Z ex_to_datetime ex_qsqrt ex_table _ _ _ H1 H2 H3).
Defined.

Lemma training_codes_decode_witness :
  exists row, In row (fo_X (ex_feature_eng [ex_clean_row])) /\
  exists r, In r [ex_clean_row] /\
    forall col, In col categorical_cols ->
      exists le code,
        assoc col (fo_label_encoders (ex_feature_eng [ex_clean_row])) = Some le /\
        assoc (col ++ "_encoded") row = Some code /\
        (0 <= code < Z.of_nat (List.length (classes_ le)))%Z /\
        le_inverse_transform le code = Some (astype_str (categorical_value Z col r)).
Proof.
  assert (H : In (hd [] (fo_X (ex_feature_eng [ex_clean_row])))
                 (fo_X (ex_feature_eng [ex_clean_row])))
    by (vm_compute; left; reflexivity).
  eexists; split; [exact H|].
  exact (training_codes_decode Z ex_to_datetime ex_qsqrt ex_dt_hour ex_dt_dayofweek
           ex_dt_month ex_dt_days_between [ex_clean_row] _ H).
Defined.

Lemma popularity_counts_witness :
  exists row, In row (fo_X (ex_feature_eng [ex_clean_row; ex_clean_row])) /\
  exists r rp ap, In r [ex_clean_row; ex_clean_row] /\
    assoc "route_popularity" row = Some rp /\ assoc "airline_popularity" row = Some ap /\
    (departure_airport r <> None -> arrival_airport r <> None -> 1 <= rp)%Z /\
    (departure_airport r = None \/ arrival_airport r = None -> rp = 0)%Z /\
    (flight_number r <> None -> 1 <= ap)%Z /\
    (flight_number r = None -> ap = 0)%Z /\
    (rp <= Z.of_nat (List.length [ex_clean_row; ex_clean_row]))%Z /\
    (ap <= Z.of_nat (List.length [ex_clean_row; ex_clean_row]))%Z.
Proof.
  assert (H : In (hd [] (fo_X (ex_feature_eng [ex_clean_row; ex_clean_row])))
                 (fo_X (ex_feature_eng [ex_clean_row; ex_clean_row])))
    by (vm_compute; left; reflexivity).
  eexists; split; [exact H|].
  exact (popularity_counts Z ex_qsqrt ex_dt_hour ex_dt_dayofweek ex_dt_month
           ex_dt_days_between [ex_clean_row; ex_clean_row] _ H).
Defined.

Lemma predict_missing_columns_witness :
  exists df log1 df' log2,
    derive_features Z ex_to_datetime ex_dt_hour ex_dt_dayofweek ex_dt_month
      ex_dt_days_between ex_dt_tz_aware (load_model ex_md_degenerate) ex_req_no_class []
      = (Ok df, log1) /\
    encode_categoricals Z (load_model ex_md_degenerate) df log1 = (Ok df', log2) /\
    let missing := filter (fun col => match assoc col df' with Some _ => false | None => true end)
                     all_feature_columns in
    missing <> [] /\
    ex_predict (load_model ex_md_degenerate) ex_req_no_class [] =
      (Err (KeyError missing), app log2 (map FeatureMissing missing)).
Proof.
  destruct (derive_features Z ex_to_datetime ex_dt_hour ex_dt_dayofweek ex_dt_month
              ex_dt_days_between ex_dt_tz_aware (load_model ex_md_degenerate) ex_req_no_class [])
    as [r1 log1] eqn:E1.
  assert (E1c := E1); vm_compute in E1c.
  destruct r1 as [df|e]; [|discriminate E1c].
  destruct (encode_categoricals Z (load_model ex_md_degenerate) df log1) as [r2 log2] eqn:E2.
  assert (E2c := E2); injection E1c as E1d E1l; rewrite <- E1d, <- E1l in E2c;
    vm_compute in E2c.
  destruct r2 as [df'|e]; [|discriminate E2c].
  exists df, log1, df', log2; split; [reflexivity|split; [exact E2|]].
  intros missing.
  assert (Hne : missing <> []).
  { injection E2c as E2d _; unfold missing; rewrite <- E2d; vm_compute; discriminate. }
  split; [exact Hne|].
  exact (predict_missing_columns Z ex_to_datetime ex_dt_hour ex_dt_dayofweek ex_dt_month
           ex_dt_days_between ex_dt_tz_aware (load_model ex_md_degenerate) ex_model
           ex_req_no_class all_feature_columns df df' [] _ _ eq_refl eq_refl E1 E2 Hne).
Defined.


Lemma predict_datetime_errors_witness :
  best_model (load_model ex_md_degenerate) = Some ex_model /\
  (assoc "create_at" ex_req = None ->
     ex_predict (load_model ex_md_degenerate) ex_req [] = (Err (KeyError ["create_at"]), [])) /\
  (forall sca, assoc "create_at" ex_req = Some sca -> ex_to_datetime sca = None ->
     exists msg, ex_predict (load_model ex_md_degenerate) ex_req [] = (Err (ValueError msg), [])) /\
  (forall sca ca, assoc "create_at" ex_req = Some sca -> ex_to_datetime sca = Some ca ->
     assoc "flight_date" ex_req = None ->
     ex_predict (load_model ex_md_degenerate) ex_req [] = (Err (KeyError ["flight_date"]), [])) /\
  (forall sca ca sfd, assoc "create_at" ex_req = Some sca -> ex_to_datetime sca = Some ca ->
     assoc "flight_date" ex_req = Some sfd -> ex_to_datetime sfd = None ->
     exists msg, ex_predict (load_model ex_md_degenerate) ex_req [] = (Err (ValueError msg), [])).
Proof.
  assert (H : best_model (load_model ex_md_degenerate) = Some ex_model) by reflexivity.
  split; [exact H|].
  exact (predict_datetime_errors Z ex_to_datetime ex_dt_hour ex_dt_dayofweek ex_dt_month
           ex_dt_days_between ex_dt_tz_aware (load_model ex_md_degenerate) ex_model ex_req [] H).
Defined.

Lemma predict_missing_field_errors_witness :
  best_model (load_model ex_md_degenerate) = Some ex_model /\
  assoc "create_at" ex_req = Some "0" /\ ex_to_datetime "0" = Some 0%Z /\
  assoc "flight_date" ex_req = Some "45T14" /\ ex_to_datetime "45T14" = Some 45%Z /\
  (ex_dt_tz_aware 45 <> ex_dt_tz_aware 0 ->
     ex_predict (load_model ex_md_degenerate) ex_req [] =
       (Err (TypeError "Cannot subtract tz-naive and tz-aware datetime-like objects"), [])) /\
  (ex_dt_tz_aware 45 = ex_dt_tz_aware 0 -> assoc "departure_time" ex_req = None ->
     ex_predict (load_model ex_md_degenerate) ex_req [] = (Err (KeyError ["departure_time"]), [])) /\
  (forall sdep, ex_dt_tz_aware 45 = ex_dt_tz_aware 0 ->
     assoc "departure_time" ex_req = Some sdep -> assoc "arrival_time" ex_req = None ->
     ex_predict (load_model ex_md_degenerate) ex_req [] = (Err (KeyError ["arrival_time"]), [])) /\
  (forall sdep sarr rs, ex_dt_tz_aware 45 = ex_dt_tz_aware 0 ->
     assoc "departure_time" ex_req = Some sdep ->
     assoc "arrival_time" ex_req = Some sarr ->
     route_popularity_stats (load_model ex_md_degenerate) = Some rs ->
     assoc "flight_number" ex_req = None ->
     ex_predict (load_model ex_md_degenerate) ex_req [] = (Err (KeyError ["flight_number"]), [])).
Proof.
  assert (H0 : best_model (load_model ex_md_degenerate) = Some ex_model) by reflexivity.
  assert (H1 : assoc "create_at" ex_req = Some "0") by reflexivity.
  assert (H2 : ex_to_datetime "0" = Some 0%Z) by (vm_compute; reflexivity).
  assert (H3 : assoc "flight_date" ex_req = Some "45T14") by reflexivity.
  assert (H4 : ex_to_datetime "45T14" = Some 45%Z) by (vm_compute; reflexivity).
  split; [exact H0|split; [exact H1|split; [exact H2|split; [exact H3|split; [exact H4|]]]]].
  exact (predict_missing_field_errors Z ex_to_datetime ex_dt_hour ex_dt_dayofweek ex_dt_month
           ex_dt_days_between ex_dt_tz_aware (load_model ex_md_degenerate) ex_model ex_req "0"
           "45T14" 0%Z 45%Z [] H0 H1 H2 H3 H4).
Defined.


Lemma predict_known_categories_witness :
  (forall c, In c categorical_cols ->
     exists s le code,
       (if String.eqb c "airline" then Some (prefix2 "VJ1198") else assoc c ex_req_known) = Some s /\
       assoc c (label_encoders (load_model ex_md_degenerate)) = Some le /\
       le_transform le s = Some code) /\
  exists X_input,
    ex_build (load_model ex_md_degenerate) ex_req_known [] = (Ok X_input, []) /\
    (forall c s le code i, In c categorical_cols ->
       (if String.eqb c "airline" then Some (prefix2 "VJ1198") else assoc c ex_req_known) = Some s ->
       assoc c (label_encoders (load_model ex_md_degenerate)) = Some le ->
       le_transform le s = Some code ->
       nth_error all_feature_columns i = Some (c ++ "_encoded") ->
       nth_error X_input i = Some (inject_Z code)) /\
    ex_predict (load_model ex_md_degenerate) ex_req_known [] =
      (Ok (clip_prediction (price_stats (load_model ex_md_degenerate)) (ex_model X_input)), []).
Proof.
  assert (Hk : forall c, In c categorical_cols ->
     exists s le code,
       (if String.eqb c "airline" then Some (prefix2 "VJ1198") else assoc c ex_req_known) = Some s /\
       assoc c (label_encoders (load_model ex_md_degenerate)) = Some le /\
       le_transform le s = Some code).
  { intros c Hc; simpl in Hc;
      repeat (destruct Hc as [<-|Hc];
        [do 3 eexists; split; [reflexivity|split; [reflexivity|reflexivity]]|]);
      destruct Hc. }
  split; [exact Hk|].
  apply (predict_known_categories Z ex_to_datetime ex_dt_hour ex_dt_dayofweek ex_dt_month
           ex_dt_days_between ex_dt_tz_aware (load_model ex_md_degenerate) ex_model all_feature_columns
           ex_req_known "0" "45T14" "VJ1198" "08:00" "10:15" 0%Z 45%Z
           (mkPopStats (Some 10) None) (mkPopStats (Some 20) None) []);
    try (vm_compute; reflexivity).
  - intros c Hc; exact Hc.
  - exact Hk.
Defined.

Lemma pipeline_bundle_predicts_witness :
  (forall c, In c ["departure_airport"; "arrival_airport"; "classes"; "type_of_plane"] ->
     exists s, assoc c ex_req = Some s) /\
  let cleaned := load_and_preprocess_data Z ex_to_datetime ex_qsqrt ex_table in
  let fe := ex_feature_eng (fst cleaned) in
  let self := load_model (fst (run_complete_pipeline ex_to_datetime ex_qsqrt ex_dt_hour
                                 ex_dt_dayofweek ex_dt_month ex_dt_days_between ex_fit
                                 ex_table)) in
  price_stats self = Some (snd cleaned) /\
  feature_columns self = Some all_feature_columns /\
  label_encoders self = fo_label_encoders fe /\
  exists name X_input log',
    In name model_names /\
    best_model self = Some (cr_model (ex_fit (fo_X fe) (fo_y fe) name)) /\
    List.length X_input = 20%nat /\
    ex_predict self ex_req [] =
      (Ok (clip_prediction (Some (snd cleaned))
             (cr_model (ex_fit (fo_X fe) (fo_y fe) name) X_input)), log').
Proof.
  assert (Hreq : forall c, In c ["departure_airport"; "arrival_airport"; "classes";
                                 "type_of_plane"] -> exists s, assoc c ex_req = Some s).
  { intros c Hc; simpl in Hc;
      repeat (destruct Hc as [<-|Hc]; [eexists; reflexivity|]); destruct Hc. }
  split; [exact Hreq|].
  apply (pipeline_bundle_predicts Z ex_to_datetime ex_qsqrt ex_dt_hour ex_dt_dayofweek
           ex_dt_month ex_dt_days_between ex_dt_tz_aware ex_fit ex_table ex_req "0" "45T14" "VJ1198"
           "08:00" "10:15" 0%Z 45%Z []);
    try (vm_compute; reflexivity).
  exact Hreq.
Defined.
